(** * invenio-cli: requirement checks and installation step lists

    A shallow embedding of [invenio_cli/commands/requirements.py]
    (class [RequirementsCommands]) and [invenio_cli/commands/install.py]
    (class [InstallCommands]), followed by the properties of the version
    comparison, of the per-tool checks and of the step-list builders.

    Conventions.
    - A Python [str] is a [string]: a sequence of code points below 256,
      each [ascii] standing for the code point of the same number.
    - A Python [int] is a [Z].
    - A Python call returns a value, raises an exception, or is cut
      short by a signal that is not an exception: [result A]. *)

From Stdlib Require Import ZArith List String Ascii Bool Lia.
From Stdlib Require Import DecimalString DecimalZ DecimalPos.
Import ListNotations.

Open Scope string_scope.
Open Scope Z_scope.

(** ** Exceptions and the error monad *)

(** The instances of [Exception]: the ones that the modelled code can
    raise itself, and the ones raised by code outside it ([run_cmd],
    [json.loads], [DockerHelper]), which are known only through their
    message [str(err)]. *)
Inductive exn : Type :=
| ValueError (literal : string)      (* int(literal), not a literal *)
| ValueErrorLimit (digits : N)       (* int(literal), too many digits *)
| AttributeError (attr : string)     (* None.attr *)
| IndexError                         (* list index out of range *)
| UnboundLocalError (name : string)  (* local read before assignment *)
| Foreign (message : string).        (* raised by a collaborator *)

(** A call returns, raises an instance of [Exception], or is cut short by
    a signal that is not one ([KeyboardInterrupt], [SystemExit]), which
    [except Exception] does not catch. *)
Inductive result (A : Type) : Type :=
| Return (a : A)
| Raise (e : exn)
| Abort (signal : string).
Arguments Return {A} a.
Arguments Raise {A} e.
Arguments Abort {A} signal.

Definition bind {A B : Type} (m : result A) (k : A -> result B) : result B :=
  match m with
  | Return a => k a
  | Raise e => Raise e
  | Abort s => Abort s
  end.

Notation "x <- m ;; k" := (bind m (fun x => k))
  (at level 61, m at next level, right associativity).

(** [try: body except Exception as err: handler(err)]: the handler gets
    the instances of [Exception]; a signal that is not one passes
    through. *)
Definition try_except {A : Type} (body : result A) (handler : exn -> result A)
  : result A :=
  match body with
  | Return a => Return a
  | Raise e => handler e
  | Abort s => Abort s
  end.

Fixpoint mapM {A B : Type} (f : A -> result B) (l : list A) : result (list B) :=
  match l with
  | [] => Return []
  | x :: l' => y <- f x ;; ys <- mapM f l' ;; Return (y :: ys)
  end.

(** ** Python string and integer primitives *)

Module Py.

Definition code (c : ascii) : nat := nat_of_ascii c.

Definition is_digit (c : ascii) : bool :=
  (48 <=? code c)%nat && (code c <=? 57)%nat.

Definition digit_val (c : ascii) : Z := Z.of_nat (code c) - 48.

(** White space of [str.strip()]: the code points below 256 on which
    [str.isspace] holds. *)
Definition is_space (c : ascii) : bool :=
  let n := code c in
  ((9 <=? n) && (n <=? 13) || (28 <=? n) && (n <=? 32)
   || (n =? 133) || (n =? 160))%nat.

(** White space that [int()] skips around a literal: the separators
    0x1c-0x1f are not part of it. *)
Definition is_int_space (c : ascii) : bool :=
  let n := code c in
  ((9 <=? n) && (n <=? 13) || (n =? 32) || (n =? 133) || (n =? 160))%nat.

Fixpoint lstrip_by (sp : ascii -> bool) (s : string) : string :=
  match s with
  | String c s' => if sp c then lstrip_by sp s' else s
  | EmptyString => s
  end.

Fixpoint rstrip_by (sp : ascii -> bool) (s : string) : string :=
  match s with
  | String c s' =>
      match rstrip_by sp s' with
      | EmptyString => if sp c then EmptyString else String c EmptyString
      | t => String c t
      end
  | EmptyString => EmptyString
  end.

Definition strip_by (sp : ascii -> bool) (s : string) : string :=
  rstrip_by sp (lstrip_by sp s).

(** [s.strip()] *)
Definition strip (s : string) : string := strip_by is_space s.

(** [s.split(sep)] for a separator of one character: never empty, and
    [n] separators give [n + 1] fields. *)
Fixpoint split (sep : ascii) (s : string) : list string :=
  match s with
  | EmptyString => [EmptyString]
  | String c s' =>
      if Ascii.eqb c sep then EmptyString :: split sep s'
      else match split sep s' with
           | field :: fields => String c field :: fields
           | [] => [String c EmptyString]
           end
  end.

(** The digits of a decimal literal, with single underscores allowed
    between digits. [sep_ok] tells whether an underscore, or the end, may
    come next. *)
Fixpoint int_digits (acc : Z) (sep_ok : bool) (s : string) : option Z :=
  match s with
  | EmptyString => if sep_ok then Some acc else None
  | String c s' =>
      if is_digit c then int_digits (acc * 10 + digit_val c) true s'
      else if Ascii.eqb c "_" && sep_ok then int_digits acc false s'
      else None
  end.

(** [sys.get_int_max_str_digits()], at its default: [int] refuses a
    literal with more digits. *)
Definition int_max_str_digits : N := 4300.

Fixpoint count_digits (s : string) : N :=
  match s with
  | String c s' => ((if is_digit c then 1 else 0) + count_digits s')%N
  | EmptyString => 0%N
  end.

Definition within_limit (s : string) : bool :=
  (count_digits s <=? int_max_str_digits)%N.

Definition unsigned_literal (s : string) : option Z :=
  if within_limit s then int_digits 0 false s else None.

(** The value of [int(s)], when it has one. *)
Definition int_literal (s : string) : option Z :=
  match strip_by is_int_space s with
  | String "+" s' => unsigned_literal s'
  | String "-" s' => option_map Z.opp (unsigned_literal s')
  | s' => unsigned_literal s'
  end.

(** The digits and underscores that a string starts with. *)
Fixpoint digit_run (s : string) : string :=
  match s with
  | String c s' =>
      if is_digit c || Ascii.eqb c "_" then String c (digit_run s')
      else EmptyString
  | EmptyString => EmptyString
  end.

Definition unsigned_body (s : string) : string :=
  match lstrip_by is_int_space s with
  | String "+" s' => s'
  | String "-" s' => s'
  | s' => s'
  end.

(** The [ValueError] of [int(s)] when it has no value: the limit is
    tested on the run of digits that follows the sign, once this run is
    well formed and before what comes after it is looked at. *)
Definition int_error (s : string) : exn :=
  let run := digit_run (unsigned_body s) in
  match int_digits 0 false run with
  | Some _ =>
      if within_limit run then ValueError s
      else ValueErrorLimit (count_digits run)
  | None => ValueError s
  end.

(** [int(s)] *)
Definition int (s : string) : result Z :=
  match int_literal s with
  | Some z => Return z
  | None => Raise (int_error s)
  end.

(** [str(z)], which is also how an f-string renders an [int]. The code
    renders the required version, [sys.version_info] and integers that
    [int] returned; the limit on the digits of a rendered integer, which
    the last cannot exceed, is not modelled. *)
Definition str (z : Z) : string := NilZero.string_of_int (Z.to_int z).

Fixpoint join (sep : string) (l : list string) : string :=
  match l with
  | [] => EmptyString
  | [x] => x
  | x :: l' => x ++ sep ++ join sep l'
  end.

(** How an f-string renders a list of [int]: [[13, 9, 9]]. *)
Definition str_list (l : list Z) : string :=
  "[" ++ join ", " (map str l) ++ "]".

(** How an f-string renders an optional [str]. *)
Definition str_opt (o : option string) : string :=
  match o with
  | Some s => s
  | None => "None"
  end.

(** [str(err)]. For [ValueError] the literal is shown between single
    quotes, which is what [repr] gives for a literal without quotes,
    backslashes and unprintable characters. *)
Definition str_exn (e : exn) : string :=
  match e with
  | ValueError lit => "invalid literal for int() with base 10: '" ++ lit ++ "'"
  | ValueErrorLimit digits =>
      "Exceeds the limit (" ++ str (Z.of_N int_max_str_digits)
      ++ " digits) for integer string conversion: value has "
      ++ str (Z.of_N digits)
      ++ " digits; use sys.set_int_max_str_digits() to increase the limit"
  | AttributeError attr => "'NoneType' object has no attribute '" ++ attr ++ "'"
  | IndexError => "list index out of range"
  | UnboundLocalError name =>
      "cannot access local variable '" ++ name
      ++ "' where it is not associated with a value"
  | Foreign message => message
  end.

End Py.

(** ** Regular expressions, as far as [_version_from_string] needs them *)

Module Re.

(** A pattern is a sequence of items, each a character set taken once or
    under a greedy star. *)
Inductive charset : Type :=
| Range (lo hi : ascii)   (* [lo-hi] *)
| Lit (c : ascii).        (* \c *)

Inductive item : Type :=
| One (cs : charset)
| Star (cs : charset).

Definition pattern : Type := list item.

Definition mem (cs : charset) (c : ascii) : bool :=
  match cs with
  | Range lo hi => (Py.code lo <=? Py.code c)%nat && (Py.code c <=? Py.code hi)%nat
  | Lit c' => Ascii.eqb c c'
  end.

(** [match_here p s]: the match of [p] at the start of [s] that a
    backtracking matcher finds first, a star taking as many characters as
    leave the rest of the pattern matching. *)
Fixpoint match_here (p : pattern) (s : string) {struct p} : option string :=
  match p with
  | [] => Some EmptyString
  | One cs :: p' =>
      match s with
      | String c s' =>
          if mem cs c then option_map (String c) (match_here p' s') else None
      | EmptyString => None
      end
  | Star cs :: p' =>
      (fix star (s : string) : option string :=
         match s with
         | String c s' =>
             if mem cs c then
               match star s' with
               | Some m => Some (String c m)
               | None => match_here p' s
               end
             else match_here p' s
         | EmptyString => match_here p' s
         end) s
  end.

(** [re.search(p, s)]: the match at the leftmost position that has one;
    [None] when no position has. *)
Fixpoint search (p : pattern) (s : string) : option string :=
  match match_here p s with
  | Some m => Some m
  | None =>
      match s with
      | String _ s' => search p s'
      | EmptyString => None
      end
  end.

End Re.

(** ** [helpers.process.ProcessResponse] *)

(** Modelled from the spec: the class [ProcessResponse] of
    [helpers/process.py] is not among the sources; the spec gives its
    fields, [output], [error] and [status_code]. A field that a
    constructor call does not pass is absent ([None]). *)
Record ProcessResponse : Type := mkProcessResponse {
  output : option string;
  error : option string;
  status_code : Z
}.

(** ** [RequirementsCommands]: version extraction and comparison *)

(** [r"[0-9]*\.[0-9]*\.[0-9]*"] *)
Definition version_pattern : Re.pattern :=
  [Re.Star (Re.Range "0" "9"); Re.One (Re.Lit ".");
   Re.Star (Re.Range "0" "9"); Re.One (Re.Lit ".");
   Re.Star (Re.Range "0" "9")].

Definition _version_from_string (string : string) : result String.string :=
  let groups := Re.search version_pattern string in
  match groups with
  | Some m => Return m
  | None => Raise (AttributeError "group")
  end.

(** The comparison of [_check_version] on the three parsed parts. *)
Definition version_ok (parts : list Z) (major minor patch : Z) (exact : bool)
  : bool :=
  let p0 := nth 0 parts 0 in
  let p1 := nth 1 parts 0 in
  let p2 := nth 2 parts 0 in
  if exact then
    let major_match := p0 =? major in
    let minor_match := (minor =? -1) || (p1 =? minor) in
    let patch_match := (patch =? -1) || (p2 =? patch) in
    major_match && minor_match && patch_match
  else
    let major_higher := p0 >? major in
    let major_ok := p0 >=? major in
    let minor_higher := major_ok && (p1 >? minor) in
    let minor_ok := major_ok && (p1 >=? minor) in
    let patch_ok := minor_ok && (p2 >=? patch) in
    major_higher || minor_higher || patch_ok.

Definition expected_version (major minor patch : Z) : string :=
  if minor >? -1 then
    if patch >? -1 then Py.str major ++ "." ++ Py.str minor ++ "." ++ Py.str patch
    else Py.str major ++ "." ++ Py.str minor
  else Py.str major.

Definition format_error (binary : string) : ProcessResponse :=
  {| output := None;
     error := Some (binary ++ " incorrect version format or not found. Check that it is installed correctly");
     status_code := 1 |}.

Definition version_ok_response (binary version : string) : ProcessResponse :=
  {| output := Some (binary ++ " version OK. Got " ++ version ++ ".");
     error := None;
     status_code := 0 |}.

Definition wrong_version_response (binary : string) (parts : list Z)
  (major minor patch : Z) : ProcessResponse :=
  {| output := None;
     error := Some (binary ++ " wrong version." ++ "Got " ++ Py.str_list parts
                    ++ " expected " ++ expected_version major minor patch);
     status_code := 1 |}.

Definition _check_version (binary version : string) (major minor patch : Z)
  (exact : bool) : result ProcessResponse :=
  let parts := Py.split "." version in
  if negb (List.length parts =? 3)%nat then Return (format_error binary)
  else
    parts <- mapM Py.int parts ;;
    if version_ok parts major minor patch exact then
      Return (version_ok_response binary version)
    else
      Return (wrong_version_response binary parts major minor patch).

(** ** Steps *)

(** A value stored in the keyword arguments of a step. *)
Inductive value : Type :=
| VBool (b : bool)
| VInt (z : Z)
| VStr (s : string).

(** The functions that steps refer to. *)
Module Func.
Inductive t : Type :=
| check_node_version
| check_npm_version
| check_python_version
| check_docker_version
| check_docker_compose_version
| check_imagemagick_version
| check_git_version
| check_pipenv_installed
| update_instance_path
| _symlink_project_file_or_folder
| update_statics_and_assets
| other (name : string).   (* a function of [PackagesCommands] *)
End Func.

(** Modelled from the spec: the class [FunctionStep] of [commands/steps.py]
    is not among the sources; a step is a function, a mapping of
    arguments (empty when the call passes none) and a message. The mapping
    keeps the order of insertion. *)
Record FunctionStep : Type := mkFunctionStep {
  func : Func.t;
  args : list (string * value);
  message : string
}.

(** ** [RequirementsCommands]: the checks of each tool *)

Definition not_found (tool message : string) : ProcessResponse :=
  {| output := None;
     error := Some (tool ++ " not found. Got " ++ message ++ ".");
     status_code := 1 |}.

(** [result.output.strip()] *)
Definition output_strip (r : ProcessResponse) : result string :=
  match output r with
  | Some s => Return (Py.strip s)
  | None => Raise (AttributeError "strip")
  end.

Definition pipenv_ok (version : string) : ProcessResponse :=
  {| output := Some ("Pipenv OK. Got version " ++ version ++ ".");
     error := None;
     status_code := 0 |}.

Section Checks.

(** [helpers.process.run_cmd]: runs a command line and returns what it
    printed and its exit code, or raises when the process cannot be
    started. *)
Variable run_cmd : list string -> result ProcessResponse.

(** [json.loads(s)["Client"]["Version"]]: the string found there, or the
    exception raised on the way to it. *)
Variable json_client_version : string -> result string.

(** [DockerHelper(..., local=False)], known by its attribute
    [docker_compose], the command line of the compose plugin. Building
    the helper may raise. *)
Variable docker_helper : result (list string).

(** [sys.version_info]: major, minor and micro. *)
Variable version_info : Z * Z * Z.

(** [rdm_version()[0]] *)
Variable rdm_major : Z.

Definition check_node_version (major minor patch : Z) (exact : bool)
  : result ProcessResponse :=
  try_except
    (result <- run_cmd ["node"; "--version"] ;;
     out <- output_strip result ;;
     version <- _version_from_string out ;;
     _check_version "Node" version major minor patch exact)
    (fun err => Return (not_found "Node" (Py.str_exn err))).

Definition check_npm_version (major minor patch : Z) (exact : bool)
  : result ProcessResponse :=
  try_except
    (result <- run_cmd ["npm"; "--version"] ;;
     out <- output_strip result ;;
     version <- _version_from_string out ;;
     _check_version "NPM" version major minor patch exact)
    (fun err => Return (not_found "NPM" (Py.str_exn err))).

Definition check_python_version (major minor patch : Z) (exact : bool)
  : result ProcessResponse :=
  let '(vmajor, vminor, vmicro) := version_info in
  let version := Py.str vmajor ++ "." ++ Py.str vminor ++ "." ++ Py.str vmicro in
  _check_version "Python" version major minor patch exact.

Definition check_docker_version (major minor patch : Z) (exact : bool)
  : result ProcessResponse :=
  try_except
    (result <- run_cmd ["docker"; "version"; "--format"; "json"] ;;
     out <- output_strip result ;;
     client_version <- json_client_version out ;;
     version <- _version_from_string client_version ;;
     _check_version "Docker" version major minor patch exact)
    (fun err => Return (not_found "Docker" (Py.str_exn err))).

Definition check_docker_compose_version (major minor patch : Z) (exact : bool)
  : result ProcessResponse :=
  docker_compose <- docker_helper ;;
  try_except
    (result <- run_cmd (docker_compose ++ ["version"])%list ;;
     out <- output_strip result ;;
     version <- _version_from_string out ;;
     _check_version "Docker Compose" version major minor patch exact)
    (fun err => Return (not_found "Docker Compose" (Py.str_exn err))).

Definition check_imagemagick_version (major minor patch : Z) (exact : bool)
  : result ProcessResponse :=
  try_except
    (result <- run_cmd ["convert"; "--version"] ;;
     out <- output_strip result ;;
     version <- _version_from_string out ;;
     _check_version "ImageMagick" version major minor patch exact)
    (fun err => Return (not_found "ImageMagick" (Py.str_exn err))).

Definition check_git_version (major minor patch : Z) (exact : bool)
  : result ProcessResponse :=
  try_except
    (result <- run_cmd ["git"; "--version"] ;;
     out <- output_strip result ;;
     version <- _version_from_string out ;;
     _check_version "git" version major minor patch exact)
    (fun err => Return (not_found "git" (Py.str_exn err))).

(** The [except] clause of [check_pipenv_installed] reads the local
    [result], which is bound only once [run_cmd] has returned. *)
Definition pipenv_except (local_result : option ProcessResponse)
  : result ProcessResponse :=
  match local_result with
  | Some r => Return (not_found "Pipenv" (Py.str_opt (error r)))
  | None => Raise (UnboundLocalError "result")
  end.

Definition check_pipenv_installed : result ProcessResponse :=
  match run_cmd ["pipenv"; "--version"] with
  | Raise _ => pipenv_except None
  | Abort signal => Abort signal
  | Return result =>
      try_except
        (out <- output_strip result ;;
         let parts := Py.split "," out in
         let first := nth 0 parts EmptyString in
         if negb (String.eqb first "pipenv") then
           Return (not_found "Pipenv" first)
         else
           match nth_error parts 1 with
           | None => Raise IndexError
           | Some second =>
               version <- _version_from_string second ;;
               Return (pipenv_ok version)
           end)
        (fun _ => pipenv_except (Some result))
  end.

Definition check_dev : list FunctionStep :=
  let '(node_version, npm_version) :=
    if rdm_major >=? 12 then (18, 10)
    else if rdm_major >=? 11 then (16, 7)
    else (14, 6) in
  [ {| func := Func.check_node_version;
       args := [("major", VInt node_version)];
       message := "Checking Node version..." |};
    {| func := Func.check_npm_version;
       args := [("major", VInt npm_version)];
       message := "Checking NPM version..." |};
    {| func := Func.check_imagemagick_version;
       args := [("major", VInt 0); ("minor", VInt 0)];
       message := "Checking ImageMagick version..." |};
    {| func := Func.check_git_version;
       args := [("major", VInt 0); ("minor", VInt 0)];
       message := "Checking git version..." |} ].

Definition check_base : list FunctionStep :=
  [ {| func := Func.check_python_version;
       args := [("major", VInt 3); ("minor", VInt 9)];
       message := "Checking Python version..." |};
    {| func := Func.check_pipenv_installed;
       args := [];
       message := "Checking Pipenv is installed..." |};
    {| func := Func.check_docker_version;
       args := [("major", VInt 0); ("minor", VInt 0)];
       message := "Checking Docker version..." |};
    {| func := Func.check_docker_compose_version;
       args := [("major", VInt 1); ("minor", VInt 17)];
       message := "Checking Docker Compose version..." |} ].

Definition check (development : bool) : list FunctionStep :=
  let steps := check_base in
  if development then (steps ++ check_dev)%list else steps.

End Checks.

(** ** [InstallCommands] *)

Section Install.

(** [PackagesCommands(self.cli_config)]: whether the dependencies are
    locked, and the steps that lock and that install them. *)
Variable is_locked : ProcessResponse.
Variable lock : bool -> bool -> list FunctionStep.
Variable install_locked_dependencies : bool -> bool -> list FunctionStep.

Definition install_py_dependencies (pre dev : bool) : list FunctionStep :=
  let steps := [] in
  let steps :=
    if status_code is_locked >? 0 then (steps ++ lock pre dev)%list
    else steps in
  (steps ++ install_locked_dependencies pre dev)%list.

Definition symlink : list FunctionStep :=
  let steps := [] in
  let steps :=
    (steps ++ [ {| func := Func.update_instance_path;
                   args := [];
                   message := "Updating instance path..." |} ])%list in
  (steps ++ map (fun path =>
                   {| func := Func._symlink_project_file_or_folder;
                      args := [("target", VStr path)];
                      message := "Symlinking '" ++ path ++ "'..." |})
                ["invenio.cfg"; "templates"; "app_data"])%list.

Definition install_assets (debug : value) : list FunctionStep :=
  [ {| func := Func.update_statics_and_assets;
       args := [("force", VBool true); ("debug", debug)];
       message := "Updating statics and assets..." |} ].

Definition install (pre dev : bool) (debug flask_env : value)
  : list FunctionStep :=
  let steps := install_py_dependencies pre dev in
  let steps := (steps ++ symlink)%list in
  (steps ++ install_assets flask_env)%list.

End Install.

(** ** [InstallCommands.update_instance_path] *)

Section InstancePath.

(** The stored configuration and [cli_config.update_instance_path], which
    writes a path into it. *)
Variable Config : Type.
Variable set_instance_path : string -> Config -> Config.

(** [cli_config.python_package_manager.run_command]: the command line
    that runs a program inside the environment of the project. *)
Variable run_command : list string -> list string.

(** [helpers.process.run_cmd] *)
Variable run_cmd : list string -> result ProcessResponse.

Definition quote : ascii := "034"%char.

Definition instance_path_command : list string :=
  run_command
    [ "invenio"; "shell";
      "--TerminalInteractiveShell.editing_mode=''";
      "--no-term-title"; "-c";
      String quote ("print(app.instance_path, end='')" ++ String quote EmptyString) ].

Definition update_instance_path (cli_config : Config)
  : result (ProcessResponse * Config) :=
  result <- run_cmd instance_path_command ;;
  if status_code result =? 0 then
    path <- output_strip result ;;
    let cli_config := set_instance_path path cli_config in
    let result :=
      {| output := Some "Instance path updated successfully.";
         error := error result;
         status_code := status_code result |} in
    Return (result, cli_config)
  else Return (result, cli_config).

End InstancePath.

(** ** What a version string parses to *)

(** The three integers that [_check_version] compares: [None] when the
    string does not split into three fields at its dots, or when a field
    is not an integer literal. *)
Definition parsed_version (version : string) : option (Z * Z * Z) :=
  match Py.split "." version with
  | [s0; s1; s2] =>
      match Py.int_literal s0, Py.int_literal s1, Py.int_literal s2 with
      | Some a, Some b, Some c => Some (a, b, c)
      | _, _, _ => None
      end
  | _ => None
  end.


(** Whether a version string meets a requirement. *)
Definition meets (version : string) (major minor patch : Z) (exact : bool)
  : bool :=
  match parsed_version version with
  | Some (a, b, c) => version_ok [a; b; c] major minor patch exact
  | None => false
  end.

(** ** Shapes of text around a version *)

Definition digits : Re.charset := Re.Range "0" "9".

Fixpoint all_in (cs : Re.charset) (s : string) : bool :=
  match s with
  | String c s' => Re.mem cs c && all_in cs s'
  | EmptyString => true
  end.

Definition starts_in (cs : Re.charset) (s : string) : bool :=
  match s with
  | String c _ => Re.mem cs c
  | EmptyString => false
  end.

Fixpoint ends_in (cs : Re.charset) (s : string) : bool :=
  match s with
  | String c EmptyString => Re.mem cs c
  | String _ s' => ends_in cs s'
  | EmptyString => false
  end.

Fixpoint has_char (c0 : ascii) (s : string) : bool :=
  match s with
  | String c s' => Ascii.eqb c c0 || has_char c0 s'
  | EmptyString => false
  end.

(** Characters of a rendered integer: digits and the minus sign. *)
Definition is_numeric (c : ascii) : bool := Py.is_digit c || Ascii.eqb c "-".

Fixpoint all_numeric (s : string) : bool :=
  match s with
  | String c s' => is_numeric c && all_numeric s'
  | EmptyString => true
  end.

(** The value of a decimal numeral read from the left, starting from [acc]. *)
Fixpoint uint_value (acc : Z) (d : Decimal.uint) : Z :=
  match d with
  | Decimal.Nil => acc
  | Decimal.D0 d => uint_value (acc * 10 + 0) d
  | Decimal.D1 d => uint_value (acc * 10 + 1) d
  | Decimal.D2 d => uint_value (acc * 10 + 2) d
  | Decimal.D3 d => uint_value (acc * 10 + 3) d
  | Decimal.D4 d => uint_value (acc * 10 + 4) d
  | Decimal.D5 d => uint_value (acc * 10 + 5) d
  | Decimal.D6 d => uint_value (acc * 10 + 6) d
  | Decimal.D7 d => uint_value (acc * 10 + 7) d
  | Decimal.D8 d => uint_value (acc * 10 + 8) d
  | Decimal.D9 d => uint_value (acc * 10 + 9) d
  end.

(** ** The calls of the version-check core and their success *)

(** The collaborators of the checks, taken together. *)
Record collaborators : Type := mkCollaborators {
  run_cmd : list string -> result ProcessResponse;
  json_client_version : string -> result string;
  docker_helper : result (list string);
  version_info : Z * Z * Z
}.

Inductive check_call : Type :=
| CheckVersion (binary version : string) (major minor patch : Z) (exact : bool)
| Node (major minor patch : Z) (exact : bool)
| NPM (major minor patch : Z) (exact : bool)
| Python (major minor patch : Z) (exact : bool)
| Docker (major minor patch : Z) (exact : bool)
| DockerCompose (major minor patch : Z) (exact : bool)
| ImageMagick (major minor patch : Z) (exact : bool)
| Git (major minor patch : Z) (exact : bool)
| Pipenv.

Definition run_check (env : collaborators) (call : check_call)
  : result ProcessResponse :=
  match call with
  | CheckVersion binary version major minor patch exact =>
      _check_version binary version major minor patch exact
  | Node major minor patch exact =>
      check_node_version (run_cmd env) major minor patch exact
  | NPM major minor patch exact =>
      check_npm_version (run_cmd env) major minor patch exact
  | Python major minor patch exact =>
      check_python_version (version_info env) major minor patch exact
  | Docker major minor patch exact =>
      check_docker_version (run_cmd env) (json_client_version env)
        major minor patch exact
  | DockerCompose major minor patch exact =>
      check_docker_compose_version (run_cmd env) (docker_helper env)
        major minor patch exact
  | ImageMagick major minor patch exact =>
      check_imagemagick_version (run_cmd env) major minor patch exact
  | Git major minor patch exact =>
      check_git_version (run_cmd env) major minor patch exact
  | Pipenv => check_pipenv_installed (run_cmd env)
  end.

(** What a command printed, stripped: [None] when it could not be run or
    left no output to read. *)
Definition printed (env : collaborators) (command : list string)
  : option string :=
  match run_cmd env command with
  | Return res => option_map Py.strip (output res)
  | _ => None
  end.

Definition find_version (text : option string) : option string :=
  match text with
  | Some t => Re.search version_pattern t
  | None => None
  end.

(** The version string that a call looks at, when it gets as far. *)
Definition observed (env : collaborators) (call : check_call) : option string :=
  match call with
  | CheckVersion _ version _ _ _ _ => Some version
  | Node _ _ _ _ => find_version (printed env ["node"; "--version"])
  | NPM _ _ _ _ => find_version (printed env ["npm"; "--version"])
  | Python _ _ _ _ =>
      let '(vmajor, vminor, vmicro) := version_info env in
      Some (Py.str vmajor ++ "." ++ Py.str vminor ++ "." ++ Py.str vmicro)
  | Docker _ _ _ _ =>
      match printed env ["docker"; "version"; "--format"; "json"] with
      | Some out =>
          match json_client_version env out with
          | Return s => find_version (Some s)
          | _ => None
          end
      | None => None
      end
  | DockerCompose _ _ _ _ =>
      match docker_helper env with
      | Return docker_compose =>
          find_version (printed env (docker_compose ++ ["version"])%list)
      | _ => None
      end
  | ImageMagick _ _ _ _ => find_version (printed env ["convert"; "--version"])
  | Git _ _ _ _ => find_version (printed env ["git"; "--version"])
  | Pipenv =>
      match printed env ["pipenv"; "--version"] with
      | Some out =>
          let parts := Py.split "," out in
          if String.eqb (nth 0 parts EmptyString) "pipenv"
          then find_version (nth_error parts 1)
          else None
      | None => None
      end
  end.

(** Whether a call succeeds: the version it looks at is there and meets
    the requirement; for Pipenv, being there is enough. *)
Definition succeeded (env : collaborators) (call : check_call) : bool :=
  match observed env call with
  | Some version =>
      match call with
      | CheckVersion _ _ major minor patch exact
      | Node major minor patch exact
      | NPM major minor patch exact
      | Python major minor patch exact
      | Docker major minor patch exact
      | DockerCompose major minor patch exact
      | ImageMagick major minor patch exact
      | Git major minor patch exact => meets version major minor patch exact
      | Pipenv => true
      end
  | None => false
  end.

Definition success_message (call : check_call) (version : string) : string :=
  match call with
  | CheckVersion binary _ _ _ _ _ => binary ++ " version OK. Got " ++ version ++ "."
  | Node _ _ _ _ => "Node version OK. Got " ++ version ++ "."
  | NPM _ _ _ _ => "NPM version OK. Got " ++ version ++ "."
  | Python _ _ _ _ => "Python version OK. Got " ++ version ++ "."
  | Docker _ _ _ _ => "Docker version OK. Got " ++ version ++ "."
  | DockerCompose _ _ _ _ => "Docker Compose version OK. Got " ++ version ++ "."
  | ImageMagick _ _ _ _ => "ImageMagick version OK. Got " ++ version ++ "."
  | Git _ _ _ _ => "git version OK. Got " ++ version ++ "."
  | Pipenv => "Pipenv OK. Got version " ++ version ++ "."
  end.

Definition has_error (r : ProcessResponse) : bool :=
  match error r with
  | Some (String _ _) => true
  | _ => false
  end.

(** The invariant of a response [r] returned by [call]. *)
Definition response_invariant (env : collaborators) (call : check_call)
  (r : ProcessResponse) : Prop :=
  (status_code r = 0 <-> succeeded env call = true)
  /\ (has_error r = true <-> status_code r <> 0)
  /\ (status_code r = 0 ->
      exists version,
        observed env call = Some version
        /\ output r = Some (success_message call version)).

(** ** Collaborators for the examples *)

(** A [run_cmd] that prints [text], whatever the command. *)
Definition prints (text : string) (_ : list string) : result ProcessResponse :=
  Return {| output := Some text; error := Some EmptyString; status_code := 0 |}.

(** A machine where every tool answers with version 14.4.0. *)
Definition example_env : collaborators :=
  {| run_cmd := prints "v14.4.0";
     json_client_version := fun _ => Return "14.4.0";
     docker_helper := Return ["docker"; "compose"];
     version_info := (3, 9, 5) |}.

(** ** More shapes of text *)

Fixpoint count_char (c0 : ascii) (s : string) : nat :=
  match s with
  | String c s' => (if Ascii.eqb c c0 then 1 else 0) + count_char c0 s'
  | EmptyString => 0
  end.

Definition starts_by (sp : ascii -> bool) (s : string) : bool :=
  match s with
  | String c _ => sp c
  | EmptyString => false
  end.

Fixpoint ends_by (sp : ascii -> bool) (s : string) : bool :=
  match s with
  | String c EmptyString => sp c
  | String _ s' => ends_by sp s'
  | EmptyString => false
  end.

(** [c * n]: the character [c], [n] times. *)
Fixpoint replicate (n : nat) (c : ascii) : string :=
  match n with
  | O => EmptyString
  | S n' => String c (replicate n' c)
  end.

(** A digit group that [int] refuses: the empty one, and one with more
    digits than the limit. *)
Definition refused (group : string) : bool :=
  String.eqb group EmptyString || negb (Py.within_limit group).

(** ** The tools and their environment *)

Definition tool_name (call : check_call) : string :=
  match call with
  | CheckVersion binary _ _ _ _ _ => binary
  | Node _ _ _ _ => "Node"
  | NPM _ _ _ _ => "NPM"
  | Python _ _ _ _ => "Python"
  | Docker _ _ _ _ => "Docker"
  | DockerCompose _ _ _ _ => "Docker Compose"
  | ImageMagick _ _ _ _ => "ImageMagick"
  | Git _ _ _ _ => "git"
  | Pipenv => "Pipenv"
  end.

(** The checks whose whole body stands under [except Exception as err]. *)
Definition guarded (call : check_call) : bool :=
  match call with
  | Node _ _ _ _ | NPM _ _ _ _ | Docker _ _ _ _
  | ImageMagick _ _ _ _ | Git _ _ _ _ => true
  | _ => false
  end.

(** The checks that get to their [try] block: the guarded ones, and the
    check of Docker Compose once the helper is built. *)
Definition enters_try (env : collaborators) (call : check_call) : bool :=
  match call with
  | DockerCompose _ _ _ _ =>
      match docker_helper env with
      | Return _ => true
      | _ => false
      end
  | _ => guarded call
  end.

(** A machine where every command prints [text]. *)
Definition printing_env (text : string) : collaborators :=
  {| run_cmd := prints text;
     json_client_version := fun _ => Return "14.4.0";
     docker_helper := Return ["docker"; "compose"];
     version_info := (3, 9, 5) |}.



(** ** The requirements that the steps state *)

Fixpoint lookup (key : string) (kwargs : list (string * value)) : option value :=
  match kwargs with
  | [] => None
  | (k, v) :: kwargs' => if String.eqb k key then Some v else lookup key kwargs'
  end.

Definition required_major (s : FunctionStep) : option Z :=
  match lookup "major" (args s) with
  | Some (VInt z) => Some z
  | _ => None
  end.

(** The kinds of values. *)
Inductive kind : Type := KBool | KInt | KStr.

Definition kind_of (v : value) : kind :=
  match v with
  | VBool _ => KBool
  | VInt _ => KInt
  | VStr _ => KStr
  end.

Definition kind_eqb (k1 k2 : kind) : bool :=
  match k1, k2 with
  | KBool, KBool | KInt, KInt | KStr, KStr => true
  | _, _ => false
  end.

(** The parameters of the functions defined in the two files, after
    [cls] or [self]: the ones without a default, and the ones with one,
    each with the kind of value that the body uses it as. *)
Definition parameters (f : Func.t)
  : option (list (string * kind) * list (string * kind)) :=
  match f with
  | Func.check_node_version | Func.check_npm_version
  | Func.check_python_version | Func.check_docker_version
  | Func.check_docker_compose_version | Func.check_imagemagick_version
  | Func.check_git_version =>
      Some ([("major", KInt)],
            [("minor", KInt); ("patch", KInt); ("exact", KBool)])
  | Func.check_pipenv_installed => Some ([], [])
  | Func.update_instance_path => Some ([], [])
  | Func._symlink_project_file_or_folder => Some ([("target", KStr)], [])
  | Func.update_statics_and_assets | Func.other _ => None
  end.

Definition has_key (key : string) (kwargs : list (string * value)) : bool :=
  match lookup key kwargs with
  | Some _ => true
  | None => false
  end.

Definition declares (params : list (string * kind)) (kv : string * value)
  : bool :=
  existsb (fun p => String.eqb (fst p) (fst kv)
                    && kind_eqb (snd p) (kind_of (snd kv))) params.

(** A step whose function is defined here can be called with its
    arguments: every parameter without a default is given, and every
    argument is a parameter, of the right kind. *)
Definition well_called (s : FunctionStep) : bool :=
  match parameters (func s) with
  | Some (required, optional) =>
      forallb (fun p => has_key (fst p) (args s)) required
      && forallb (declares (required ++ optional)) (args s)
  | None => true
  end.

Definition here (s : FunctionStep) : bool :=
  match parameters (func s) with
  | Some _ => true
  | None => false
  end.

(** * Properties *)

(** ** Running the model on the examples of the documentation *)

Example check_version_node_14_19_0 :
  _check_version "Node" "14.19.0" 14 18 5 false
  = Return (version_ok_response "Node" "14.19.0").
Proof. reflexivity. Qed.

Example check_version_node_13_9_9 :
  _check_version "Node" "13.9.9" 14 0 0 false
  = Return (wrong_version_response "Node" [13; 9; 9] 14 0 0).
Proof. reflexivity. Qed.

Example check_version_only_major :
  _check_version "Node" "14.18.0" 14 (-1) (-1) false
  = Return (version_ok_response "Node" "14.18.0").
Proof. reflexivity. Qed.

Example check_version_python_exact :
  _check_version "Python" "3.9.5" 3 9 (-1) true
  = Return (version_ok_response "Python" "3.9.5")
  /\ _check_version "Python" "3.10.5" 3 9 (-1) true
     = Return (wrong_version_response "Python" [3; 10; 5] 3 9 (-1)).
Proof. split; reflexivity. Qed.

Example version_from_string_git :
  _version_from_string "git version 2.36.1" = Return "2.36.1".
Proof. reflexivity. Qed.

Example version_from_string_imagemagick :
  _version_from_string "ImageMagick, version 7.0.11-13" = Return "7.0.11".
Proof. reflexivity. Qed.

Example version_from_string_none :
  _version_from_string "command not found" = Raise (AttributeError "group").
Proof. reflexivity. Qed.

Example check_node_version_example :
  check_node_version (prints "v14.4.0") 14 (-1) (-1) false
  = Return (version_ok_response "Node" "14.4.0").
Proof. reflexivity. Qed.

Example check_pipenv_installed_example :
  check_pipenv_installed (prints "pipenv, version 2020.11.15")
  = Return (pipenv_ok "2020.11.15").
Proof. reflexivity. Qed.

Example int_limit :
  Py.int (replicate 4301 "1") = Raise (ValueErrorLimit 4301)
  /\ Py.int_literal (replicate 4300 "1") <> None.
Proof. split; vm_compute; [reflexivity | discriminate]. Qed.

Example check_version_long_field :
  _check_version "Node" (replicate 4301 "1" ++ ".0.0") 1 (-1) (-1) false
  = Raise (ValueErrorLimit 4301).
Proof. vm_compute. reflexivity. Qed.

Example check_docker_compose_version_helper_raises :
  check_docker_compose_version (prints "Docker Compose version v2.17.3")
    (Raise (Foreign "docker")) 1 17 (-1) false
  = Raise (Foreign "docker").
Proof. reflexivity. Qed.

Example check_node_version_interrupted :
  check_node_version (fun _ => Abort "KeyboardInterrupt") 14 (-1) (-1) false
  = Abort "KeyboardInterrupt".
Proof. reflexivity. Qed.

(** ** The comparison *)

Lemma parsed_version_parts (version : string) (a b c : Z) :
  parsed_version version = Some (a, b, c) ->
  List.length (Py.split "." version) = 3%nat
  /\ mapM Py.int (Py.split "." version) = Return [a; b; c].
Proof.
  unfold parsed_version.
  destruct (Py.split "." version) as [|s0 [|s1 [|s2 [|s3 l]]]]; try discriminate.
  cbn [mapM bind]. unfold Py.int.
  destruct (Py.int_literal s0); try discriminate.
  destruct (Py.int_literal s1); try discriminate.
  destruct (Py.int_literal s2); try discriminate.
  intros [= -> -> ->]. split; reflexivity.
Qed.

Lemma check_version_parsed (binary version : string)
  (major minor patch a b c : Z) (exact : bool) :
  parsed_version version = Some (a, b, c) ->
  _check_version binary version major minor patch exact
  = Return (if version_ok [a; b; c] major minor patch exact
            then version_ok_response binary version
            else wrong_version_response binary [a; b; c] major minor patch).
Proof.
  intros H. apply parsed_version_parts in H as [Hlen Hparts].
  unfold _check_version. rewrite Hlen, Hparts. cbn.
  destruct (version_ok _ _ _ _ _); reflexivity.
Qed.

Lemma version_ok_minimum (a b c major minor patch : Z) :
  version_ok [a; b; c] major minor patch false = true
  <-> a > major
      \/ (a = major /\ b > minor)
      \/ (a = major /\ b = minor /\ c >= patch).
Proof.
  unfold version_ok. cbn [nth].
  rewrite !orb_true_iff, !andb_true_iff.
  rewrite !Z.gtb_ltb, !Z.geb_leb, !Z.ltb_lt, !Z.leb_le. lia.
Qed.

Lemma version_ok_exact (a b c major minor patch : Z) :
  version_ok [a; b; c] major minor patch true = true
  <-> a = major
      /\ (minor = -1 \/ b = minor)
      /\ (patch = -1 \/ c = patch).
Proof.
  unfold version_ok. cbn [nth].
  rewrite !andb_true_iff, !orb_true_iff, !Z.eqb_eq. tauto.
Qed.



(** The second example of the minimum mode: 13.9.9 does not reach 14.0.0. *)
Example check_version_minimum_13_9_9_fails :
  exists r,
    _check_version "Node" "13.9.9" 14 0 0 false = Return r /\ status_code r = 1.
Proof. eexists. split; reflexivity. Qed.



(** The second example of the exact mode: 3.10.5 is not a 3.9. *)
Example check_version_exact_3_10_5_fails :
  exists r,
    _check_version "Python" "3.10.5" 3 9 (-1) true = Return r
    /\ status_code r = 1.
Proof. eexists. split; reflexivity. Qed.

(** ** Malformed version strings *)


(** The guard of [_check_version]: a version string that does not split
    into exactly three fields at its dots is answered, without an
    exception, by the response with [status_code] 1 and the format
    error. *)
Theorem check_version_wrong_field_count (binary version : string)
  (major minor patch : Z) (exact : bool) :
  List.length (Py.split "." version) <> 3%nat ->
  _check_version binary version major minor patch exact
  = Return {| output := None;
              error := Some (binary ++ " incorrect version format or not found. Check that it is installed correctly");
              status_code := 1 |}.
Proof.
  intros H. unfold _check_version.
  apply Nat.eqb_neq in H. rewrite H. reflexivity.
Qed.

Lemma check_version_wrong_field_count_witness :
  List.length (Py.split "." "1.2") <> 3%nat
  /\ _check_version "Node" "1.2" 14 (-1) (-1) false
     = Return {| output := None;
                 error := Some "Node incorrect version format or not found. Check that it is installed correctly";
                 status_code := 1 |}.
Proof.
  assert (H : List.length (Py.split "." "1.2") <> 3%nat) by (cbn; lia).
  split; [exact H|].
  exact (check_version_wrong_field_count "Node" "1.2" 14 (-1) (-1) false H).
Defined.

Example check_version_abc :
  _check_version "Node" "abc" 14 (-1) (-1) false = Return (format_error "Node").
Proof. reflexivity. Qed.

(** C3 at version strings of three fields that are not all numbers,
    the letters [a.b.c] and the two dots that extraction can return: the
    count of the fields passes the guard, [int] raises [ValueError], and
    [_check_version] raises instead of answering with the format error
    that it has for the strings with another count of fields. *)
Theorem check_version_raises_on_malformed_fields :
  _check_version "Node" "a.b.c" 14 (-1) (-1) false = Raise (ValueError "a")
  /\ _check_version "Node" ".." 14 (-1) (-1) false
     = Raise (ValueError EmptyString)
  /\ _check_version "Node" "1.2" 14 (-1) (-1) false
     = Return (format_error "Node").
Proof. repeat split. Qed.

(** ** The messages of [_check_version] *)

Lemma expected_version_cases (major minor patch : Z) :
  (minor <= -1 -> expected_version major minor patch = Py.str major)
  /\ (minor > -1 -> patch <= -1 ->
      expected_version major minor patch = Py.str major ++ "." ++ Py.str minor)
  /\ (minor > -1 -> patch > -1 ->
      expected_version major minor patch
      = Py.str major ++ "." ++ Py.str minor ++ "." ++ Py.str patch).
Proof.
  unfold expected_version. repeat split; intros.
  - destruct (Z.gtb_spec minor (-1)); [lia | reflexivity].
  - destruct (Z.gtb_spec minor (-1)); [|lia].
    destruct (Z.gtb_spec patch (-1)); [lia | reflexivity].
  - destruct (Z.gtb_spec minor (-1)); [|lia].
    destruct (Z.gtb_spec patch (-1)); [reflexivity | lia].
Qed.

Example expected_version_examples :
  expected_version 14 (-1) (-1) = "14"
  /\ expected_version 14 2 (-1) = "14.2"
  /\ expected_version 14 2 1 = "14.2.1"
  /\ expected_version 14 (-1) 1 = "14".
Proof. repeat split. Qed.

(** C6 at Node 13.9.9 against a required major of 14: the response has
    [status_code] 1 and names the expected version [14], but its message
    has no space between [wrong version.] and [Got]. *)
Theorem check_version_wrong_version_message :
  _check_version "Node" "13.9.9" 14 (-1) (-1) false
  = Return {| output := None;
              error := Some "Node wrong version.Got [13, 9, 9] expected 14";
              status_code := 1 |}
  /\ "Node wrong version.Got [13, 9, 9] expected 14"
     <> "Node wrong version. Got [13, 9, 9] expected 14".
Proof.
  split; [reflexivity|]. apply String.eqb_neq. reflexivity.
Qed.

(** ** Version extraction *)

Lemma match_here_star_cons (cs : Re.charset) (p : Re.pattern)
  (c : ascii) (s : string) :
  Re.match_here (Re.Star cs :: p) (String c s)
  = if Re.mem cs c then
      match Re.match_here (Re.Star cs :: p) s with
      | Some m => Some (String c m)
      | None => Re.match_here p (String c s)
      end
    else Re.match_here p (String c s).
Proof. reflexivity. Qed.

(** A star followed by a character outside its set: the star takes the
    whole run, and giving characters back cannot help. *)
Lemma match_here_star_then_lit (cs : Re.charset) (c0 : ascii) (p : Re.pattern)
  (x r : string) :
  Re.mem cs c0 = false ->
  all_in cs x = true ->
  Re.match_here (Re.Star cs :: Re.One (Re.Lit c0) :: p) (x ++ String c0 r)
  = option_map (fun m => x ++ String c0 m) (Re.match_here p r).
Proof.
  intros Hc0. induction x as [|c x IH]; intros Hx.
  - cbn [append]. rewrite match_here_star_cons, Hc0.
    cbn. rewrite Ascii.eqb_refl. destruct (Re.match_here p r); reflexivity.
  - cbn [all_in] in Hx. apply andb_true_iff in Hx as [Hc Hx].
    cbn [append]. rewrite match_here_star_cons, Hc, (IH Hx).
    destruct (Re.match_here p r) as [m|]; cbn [option_map]; [reflexivity|].
    cbn. destruct (Ascii.eqb_spec c c0) as [->|_]; [congruence | reflexivity].
Qed.

Lemma match_here_star_last (cs : Re.charset) (z post : string) :
  all_in cs z = true ->
  starts_in cs post = false ->
  Re.match_here [Re.Star cs] (z ++ post) = Some z.
Proof.
  intros Hz Hpost. induction z as [|c z IH].
  - cbn [append]. destruct post as [|c post]; [reflexivity|].
    cbn [starts_in] in Hpost. rewrite match_here_star_cons, Hpost. reflexivity.
  - cbn [all_in] in Hz. apply andb_true_iff in Hz as [Hc Hz].
    cbn [append]. rewrite match_here_star_cons, Hc, (IH Hz). reflexivity.
Qed.

Lemma search_here (p : Re.pattern) (s m : string) :
  Re.match_here p s = Some m -> Re.search p s = Some m.
Proof. intros H. destruct s; cbn [Re.search]; rewrite H; reflexivity. Qed.

Lemma search_skip (p : Re.pattern) (c : ascii) (s : string) :
  Re.match_here p (String c s) = None ->
  Re.search p (String c s) = Re.search p s.
Proof. intros H. cbn [Re.search]. rewrite H. reflexivity. Qed.

(** No match starts inside a text without dots that does not end in a
    digit. *)
Lemma version_pattern_no_match_before (t s : string) :
  t <> EmptyString ->
  has_char "." t = false ->
  ends_in digits t = false ->
  Re.match_here version_pattern (t ++ s) = None.
Proof.
  induction t as [|c t IH]; intros Hne Hdot Hend; [congruence|].
  cbn [has_char] in Hdot. apply orb_false_iff in Hdot as [Hc Hdot].
  assert (Hlit : forall p r,
    Re.match_here (Re.One (Re.Lit ".") :: p) (String c r) = None).
  { intros p r. cbn. rewrite Hc. reflexivity. }
  unfold version_pattern. cbn [append]. rewrite match_here_star_cons.
  destruct (Re.mem (Re.Range "0" "9") c) eqn:Hd; [|apply Hlit].
  destruct t as [|c' t'].
  - cbn [ends_in] in Hend. unfold digits in Hend. congruence.
  - fold version_pattern.
    rewrite IH; [apply Hlit | discriminate | exact Hdot | exact Hend].
Qed.

Lemma version_pattern_search_skips (pre s : string) :
  has_char "." pre = false ->
  ends_in digits pre = false ->
  Re.search version_pattern (pre ++ s) = Re.search version_pattern s.
Proof.
  induction pre as [|c pre IH]; intros Hdot Hend; [reflexivity|].
  cbn [append]. rewrite search_skip.
  - apply IH.
    + cbn [has_char] in Hdot. apply orb_false_iff in Hdot. tauto.
    + destruct pre; [reflexivity | exact Hend].
  - apply (version_pattern_no_match_before (String c pre) s);
      [discriminate | exact Hdot | exact Hend].
Qed.

Lemma version_pattern_match (x y z post : string) :
  all_in digits x = true -> all_in digits y = true -> all_in digits z = true ->
  starts_in digits post = false ->
  Re.match_here version_pattern (x ++ "." ++ y ++ "." ++ z ++ post)
  = Some (x ++ "." ++ y ++ "." ++ z).
Proof.
  intros Hx Hy Hz Hpost. unfold version_pattern, digits in *. cbn [append].
  rewrite (match_here_star_then_lit (Re.Range "0" "9") "." _ x _ eq_refl Hx).
  rewrite (match_here_star_then_lit (Re.Range "0" "9") "." _ y _ eq_refl Hy).
  rewrite (match_here_star_last _ z post Hz Hpost). reflexivity.
Qed.

(** Where extraction does find the version: [x.y.z] after a text without
    dots that does not end in a digit, and before a text that does not
    start with one. *)
Lemma version_from_string_embedded (pre x y z post : string) :
  has_char "." pre = false -> ends_in digits pre = false ->
  all_in digits x = true -> all_in digits y = true -> all_in digits z = true ->
  starts_in digits post = false ->
  _version_from_string (pre ++ x ++ "." ++ y ++ "." ++ z ++ post)
  = Return (x ++ "." ++ y ++ "." ++ z).
Proof.
  intros Hdot Hend Hx Hy Hz Hpost. unfold _version_from_string.
  rewrite (version_pattern_search_skips pre _ Hdot Hend).
  rewrite (search_here _ _ _ (version_pattern_match x y z post Hx Hy Hz Hpost)).
  reflexivity.
Qed.

(** C2 at a text with an ellipsis before the version: the first match of
    the pattern is the run of two dots, whose digit groups are empty, and
    not the version 14.4.0 that follows. *)
Theorem version_from_string_ellipsis :
  _version_from_string "Loading... v14.4.0" = Return ".."
  /\ parsed_version ".." = None
  /\ _version_from_string "v14.4.0" = Return "14.4.0".
Proof. repeat split. Qed.

(** ** Rendering an integer and reading it back *)

Lemma int_digits_uint (d : Decimal.uint) (acc : Z) (ok : bool) :
  d <> Decimal.Nil \/ ok = true ->
  Py.int_digits acc ok (NilEmpty.string_of_uint d) = Some (uint_value acc d).
Proof.
  revert acc ok.
  induction d; intros acc ok H;
    try (cbn [NilEmpty.string_of_uint Py.int_digits uint_value];
         change (Py.is_digit _) with true; cbv iota;
         rewrite IHd by (right; reflexivity); reflexivity).
  destruct H as [H | ->]; [congruence | reflexivity].
Qed.

Lemma uint_value_acc (d : Decimal.uint) (p : positive) :
  uint_value (Z.pos p) d = Z.pos (Pos.of_uint_acc d p).
Proof.
  revert p. induction d; intros p; cbn [uint_value Pos.of_uint_acc];
    try reflexivity;
    match goal with
    | |- uint_value ?z _ = Z.pos (Pos.of_uint_acc _ ?q) =>
        replace z with (Z.pos q) by lia; apply IHd
    end.
Qed.

Lemma uint_value_of_uint (d : Decimal.uint) :
  uint_value 0 d = Z.of_uint d.
Proof.
  unfold Z.of_uint.
  induction d; cbn [uint_value Pos.of_uint]; try reflexivity;
    try exact IHd;
    match goal with
    | |- uint_value ?z _ = _ =>
        let q := eval cbv in (Z.to_pos z) in
        change z with (Z.pos q); rewrite uint_value_acc; reflexivity
    end.
Qed.

Lemma all_numeric_uint (d : Decimal.uint) :
  all_numeric (NilEmpty.string_of_uint d) = true.
Proof. induction d; cbn; try reflexivity; exact IHd. Qed.

Lemma all_numeric_str (z : Z) : all_numeric (Py.str z) = true.
Proof.
  unfold Py.str. destruct (Z.to_int z) as [d|d]; cbn.
  - destruct d; try apply all_numeric_uint. reflexivity.
  - destruct d; try apply all_numeric_uint. reflexivity.
Qed.

Lemma is_numeric_not_space (c : ascii) :
  is_numeric c = true -> Py.is_int_space c = false.
Proof.
  destruct c as [[] [] [] [] [] [] [] []]; cbv; congruence.
Qed.

Lemma is_numeric_not_dot (c : ascii) :
  is_numeric c = true -> Ascii.eqb c "." = false.
Proof.
  destruct c as [[] [] [] [] [] [] [] []]; cbv; congruence.
Qed.

Lemma strip_numeric (s : string) :
  all_numeric s = true -> Py.strip_by Py.is_int_space s = s.
Proof.
  intros H. unfold Py.strip_by.
  assert (Hl : Py.lstrip_by Py.is_int_space s = s).
  { destruct s as [|c s]; [reflexivity|]. cbn in *.
    apply andb_true_iff in H as [Hc _].
    rewrite (is_numeric_not_space c Hc). reflexivity. }
  rewrite Hl. induction s as [|c s IH]; [reflexivity|].
  cbn [all_numeric] in H. apply andb_true_iff in H as [Hc Hs].
  cbn [Py.rstrip_by]. rewrite IH.
  - rewrite (is_numeric_not_space c Hc). destruct s; reflexivity.
  - exact Hs.
  - destruct s as [|c' s']; [reflexivity|]. cbn in *.
    apply andb_true_iff in Hs as [Hc' _].
    rewrite (is_numeric_not_space c' Hc'). reflexivity.
Qed.

Lemma string_of_uint_nonnil (d : Decimal.uint) :
  d <> Decimal.Nil -> NilZero.string_of_uint d = NilEmpty.string_of_uint d.
Proof. destruct d; intros H; try reflexivity; congruence. Qed.

Lemma int_literal_uint (d : Decimal.uint) :
  d <> Decimal.Nil ->
  Py.within_limit (NilEmpty.string_of_uint d) = true ->
  Py.int_literal (NilEmpty.string_of_uint d) = Some (Z.of_uint d).
Proof.
  intros Hd Hlim. unfold Py.int_literal.
  rewrite (strip_numeric _ (all_numeric_uint d)).
  assert (Hu : Py.unsigned_literal (NilEmpty.string_of_uint d)
               = Some (Z.of_uint d)).
  { unfold Py.unsigned_literal. rewrite Hlim, <- uint_value_of_uint.
    apply int_digits_uint. left. exact Hd. }
  rewrite <- Hu. destruct d; try congruence; reflexivity.
Qed.

Lemma within_limit_minus (s : string) :
  Py.within_limit (String "-" s) = Py.within_limit s.
Proof. reflexivity. Qed.

(** [int(str(z))] is [z], for a [z] within the limit of [int]. *)
Lemma int_literal_str (z : Z) :
  Py.within_limit (Py.str z) = true -> Py.int_literal (Py.str z) = Some z.
Proof.
  unfold Py.str. destruct z as [|p|p]; [reflexivity| |].
  - cbn [Z.to_int NilZero.string_of_int].
    pose proof (DecimalPos.Unsigned.to_uint_nonnil p) as Hd.
    rewrite (string_of_uint_nonnil _ Hd). intros Hlim.
    rewrite (int_literal_uint _ Hd Hlim).
    unfold Z.of_uint. rewrite DecimalPos.Unsigned.of_to. reflexivity.
  - cbn [Z.to_int NilZero.string_of_int].
    pose proof (DecimalPos.Unsigned.to_uint_nonnil p) as Hd.
    rewrite (string_of_uint_nonnil _ Hd), within_limit_minus. intros Hlim.
    unfold Py.int_literal. rewrite strip_numeric.
    + unfold Py.unsigned_literal. rewrite Hlim.
      rewrite (int_digits_uint _ 0 false) by (left; exact Hd).
      rewrite uint_value_of_uint. unfold Z.of_uint.
      rewrite DecimalPos.Unsigned.of_to. reflexivity.
    + cbn [all_numeric]. rewrite all_numeric_uint. reflexivity.
Qed.

Lemma split_field (sep : ascii) (x r : string) :
  has_char sep x = false ->
  Py.split sep (x ++ String sep r) = x :: Py.split sep r.
Proof.
  induction x as [|c x IH]; intros H.
  - cbn. rewrite Ascii.eqb_refl. reflexivity.
  - cbn [has_char] in H. apply orb_false_iff in H as [Hc Hx].
    cbn [append Py.split]. rewrite Hc, (IH Hx). reflexivity.
Qed.

Lemma split_last_field (sep : ascii) (x : string) :
  has_char sep x = false -> Py.split sep x = [x].
Proof.
  induction x as [|c x IH]; intros H; [reflexivity|].
  cbn [has_char] in H. apply orb_false_iff in H as [Hc Hx].
  cbn [Py.split]. rewrite Hc, (IH Hx). reflexivity.
Qed.

Lemma all_numeric_no_dot (s : string) :
  all_numeric s = true -> has_char "." s = false.
Proof.
  induction s as [|c s IH]; intros H; [reflexivity|].
  cbn [all_numeric] in H. apply andb_true_iff in H as [Hc Hs].
  cbn [has_char]. rewrite (is_numeric_not_dot c Hc), (IH Hs). reflexivity.
Qed.

Lemma split_rendered (a b c : Z) :
  Py.split "." (Py.str a ++ "." ++ Py.str b ++ "." ++ Py.str c)
  = [Py.str a; Py.str b; Py.str c].
Proof.
  cbn [append].
  rewrite split_field by (apply all_numeric_no_dot, all_numeric_str).
  rewrite split_field by (apply all_numeric_no_dot, all_numeric_str).
  rewrite split_last_field by (apply all_numeric_no_dot, all_numeric_str).
  reflexivity.
Qed.

(** Every triple of integers within the limit of [int] is what some
    version string parses to: the string that renders it, which is also
    the one [check_python_version] builds. *)
Lemma parsed_version_rendered (a b c : Z) :
  Py.within_limit (Py.str a) = true ->
  Py.within_limit (Py.str b) = true ->
  Py.within_limit (Py.str c) = true ->
  parsed_version (Py.str a ++ "." ++ Py.str b ++ "." ++ Py.str c)
  = Some (a, b, c).
Proof.
  intros Ha Hb Hc. unfold parsed_version. rewrite split_rendered.
  rewrite (int_literal_str a Ha), (int_literal_str b Hb), (int_literal_str c Hc).
  reflexivity.
Qed.

(** [check_python_version] returns a response when the numbers of
    [sys.version_info] are within the limit of [int]. *)
Lemma check_python_version_returns (a b c major minor patch : Z)
  (exact : bool) :
  Py.within_limit (Py.str a) = true ->
  Py.within_limit (Py.str b) = true ->
  Py.within_limit (Py.str c) = true ->
  exists r, check_python_version (a, b, c) major minor patch exact = Return r.
Proof.
  intros Ha Hb Hc. unfold check_python_version.
  rewrite (check_version_parsed _ _ _ _ _ _ _ _ _
             (parsed_version_rendered a b c Ha Hb Hc)).
  eexists. reflexivity.
Qed.

(** ** Exceptions of the tool invocation *)

Lemma check_node_version_run_cmd_raises run (e : exn)
  (major minor patch : Z) (exact : bool) :
  run ["node"; "--version"] = Raise e ->
  check_node_version run major minor patch exact
  = Return (not_found "Node" (Py.str_exn e)).
Proof. intros H. unfold check_node_version. rewrite H. reflexivity. Qed.

Lemma check_npm_version_run_cmd_raises run (e : exn)
  (major minor patch : Z) (exact : bool) :
  run ["npm"; "--version"] = Raise e ->
  check_npm_version run major minor patch exact
  = Return (not_found "NPM" (Py.str_exn e)).
Proof. intros H. unfold check_npm_version. rewrite H. reflexivity. Qed.

Lemma check_docker_version_run_cmd_raises run json (e : exn)
  (major minor patch : Z) (exact : bool) :
  run ["docker"; "version"; "--format"; "json"] = Raise e ->
  check_docker_version run json major minor patch exact
  = Return (not_found "Docker" (Py.str_exn e)).
Proof. intros H. unfold check_docker_version. rewrite H. reflexivity. Qed.

Lemma check_docker_compose_version_run_cmd_raises run compose (e : exn)
  (major minor patch : Z) (exact : bool) :
  run (compose ++ ["version"])%list = Raise e ->
  check_docker_compose_version run (Return compose) major minor patch exact
  = Return (not_found "Docker Compose" (Py.str_exn e)).
Proof.
  intros H. unfold check_docker_compose_version. cbn [bind]. rewrite H.
  reflexivity.
Qed.

Lemma check_imagemagick_version_run_cmd_raises run (e : exn)
  (major minor patch : Z) (exact : bool) :
  run ["convert"; "--version"] = Raise e ->
  check_imagemagick_version run major minor patch exact
  = Return (not_found "ImageMagick" (Py.str_exn e)).
Proof. intros H. unfold check_imagemagick_version. rewrite H. reflexivity. Qed.

Lemma check_git_version_run_cmd_raises run (e : exn)
  (major minor patch : Z) (exact : bool) :
  run ["git"; "--version"] = Raise e ->
  check_git_version run major minor patch exact
  = Return (not_found "git" (Py.str_exn e)).
Proof. intros H. unfold check_git_version. rewrite H. reflexivity. Qed.

(** C5 at Pipenv: when [run_cmd] raises, the handler of
    [check_pipenv_installed] reads [result] before it is bound, and the
    check itself raises instead of returning a response, while the Node
    check on the same machine returns the response that embeds the
    message. *)
Theorem check_pipenv_installed_run_cmd_raises (e : exn) :
  check_pipenv_installed (fun _ => Raise e) = Raise (UnboundLocalError "result")
  /\ check_node_version (fun _ => Raise e) 14 (-1) (-1) false
     = Return {| output := None;
                 error := Some ("Node not found. Got " ++ Py.str_exn e ++ ".");
                 status_code := 1 |}.
Proof. split; reflexivity. Qed.

(** ** The Pipenv check *)

(** C8, as the code has it. On the stripped output of [pipenv --version],
    split at its commas: a first field other than [pipenv] gives the
    response with [status_code] 1 that names this field, whatever follows
    it; the first field [pipenv] gives [status_code] 0 when a second field
    exists and has a match of the version pattern, and otherwise
    [status_code] 1 with what the command wrote as its error. *)
Theorem check_pipenv_installed_fields run (res : ProcessResponse) (out : string) :
  run ["pipenv"; "--version"] = Return res ->
  output res = Some out ->
  let parts := Py.split "," (Py.strip out) in
  let first := nth 0 parts EmptyString in
  (first <> "pipenv" ->
   check_pipenv_installed run
   = Return {| output := None;
               error := Some ("Pipenv not found. Got " ++ first ++ ".");
               status_code := 1 |})
  /\ (first = "pipenv" ->
      forall second version,
        nth_error parts 1 = Some second ->
        Re.search version_pattern second = Some version ->
        check_pipenv_installed run
        = Return {| output := Some ("Pipenv OK. Got version " ++ version ++ ".");
                    error := None;
                    status_code := 0 |})
  /\ (first = "pipenv" ->
      (nth_error parts 1 = None
       \/ exists second, nth_error parts 1 = Some second
                         /\ Re.search version_pattern second = None) ->
      check_pipenv_installed run
      = Return {| output := None;
                  error := Some ("Pipenv not found. Got "
                                 ++ Py.str_opt (error res) ++ ".");
                  status_code := 1 |}).
Proof.
  intros Hrun Hout parts first.
  unfold check_pipenv_installed, output_strip. rewrite Hrun, Hout.
  cbn [bind try_except]. fold parts. fold first.
  repeat split.
  - intros Hne. apply String.eqb_neq in Hne. rewrite Hne. reflexivity.
  - intros Heq second version Hsecond Hsearch.
    apply String.eqb_eq in Heq. rewrite Heq, Hsecond.
    unfold _version_from_string. rewrite Hsearch. reflexivity.
  - intros Heq Hnone. apply String.eqb_eq in Heq. rewrite Heq.
    destruct Hnone as [Hnone | (second & Hsecond & Hsearch)].
    + rewrite Hnone. reflexivity.
    + rewrite Hsecond. unfold _version_from_string. rewrite Hsearch. reflexivity.
Qed.

Lemma check_pipenv_installed_fields_witness :
  check_pipenv_installed (prints "otherpkg, version 9.0.0")
  = Return {| output := None;
              error := Some "Pipenv not found. Got otherpkg.";
              status_code := 1 |}.
Proof.
  refine (proj1 (check_pipenv_installed_fields
                   (prints "otherpkg, version 9.0.0") _ _ eq_refl eq_refl) _).
  apply String.eqb_neq. reflexivity.
Defined.

(** C8 fails on an output that is the bare name: the first field is
    [pipenv], there is no second field, and the response has
    [status_code] 1. *)
Lemma check_pipenv_installed_bare_name :
  nth 0 (Py.split "," (Py.strip "pipenv")) EmptyString = "pipenv"
  /\ check_pipenv_installed (prints "pipenv")
     = Return {| output := None;
                 error := Some "Pipenv not found. Got .";
                 status_code := 1 |}
  /\ ~ (exists r, check_pipenv_installed (prints "pipenv") = Return r
                  /\ status_code r = 0).
Proof.
  repeat split. intros (r & Hr & H0). cbv in Hr. injection Hr as <-. discriminate.
Qed.

(** ** The invariant of the responses *)

Lemma has_error_text (o : option string) (a b : string) (c : ascii) (z : Z) :
  has_error {| output := o; error := Some (a ++ String c b); status_code := z |}
  = true.
Proof. destruct a; reflexivity. Qed.

(** What [_check_version] does, told by [meets]. *)
Lemma check_version_outcome (binary version : string)
  (major minor patch : Z) (exact : bool) :
  match _check_version binary version major minor patch exact with
  | Return r =>
      (status_code r = 0 <-> meets version major minor patch exact = true)
      /\ (has_error r = true <-> status_code r <> 0)
      /\ (status_code r = 0 ->
          output r = Some (binary ++ " version OK. Got " ++ version ++ "."))
  | Raise _ => meets version major minor patch exact = false
  | Abort _ => False
  end.
Proof.
  unfold _check_version, meets, parsed_version.
  destruct (Py.split "." version) as [|s0 [|s1 [|s2 [|s3 l]]]]; cbn;
    try (repeat split; intros; try discriminate; try congruence;
         destruct binary; reflexivity).
  unfold Py.int.
  destruct (Py.int_literal s0), (Py.int_literal s1), (Py.int_literal s2); cbn;
    try reflexivity.
  destruct (version_ok _ _ _ _ _) eqn:Hok; cbn.
  - repeat split; intros; try discriminate; try congruence; reflexivity.
  - repeat split; intros; try discriminate; try congruence.
    destruct binary; reflexivity.
Qed.

Ltac not_found_case :=
  intros [= <-];
  repeat split; intros; try discriminate; try congruence;
  try apply has_error_text.

Ltac compared_case :=
  match goal with
  | |- context [_check_version ?b ?v ?M ?m ?p ?e] =>
      pose proof (check_version_outcome b v M m p e) as Hout;
      destruct (_check_version b v M m p e) as [r'|err|sig]; cbn;
      [ intros [= <-]; destruct Hout as (H1 & H2 & H3);
        repeat split; try tauto;
        intros H0; exists v; split; [reflexivity | exact (H3 H0)]
      | rewrite Hout; not_found_case
      | contradiction ]
  end.

Ltac printed_case :=
  cbn; unfold response_invariant, succeeded, observed, printed, find_version;
  match goal with
  | |- context [run_cmd ?env ?cmd] =>
      destruct (run_cmd env cmd) as [res|err|sig]; cbn;
      [|not_found_case|discriminate];
      unfold output_strip;
      destruct (output res) as [out|]; cbn; [|not_found_case]
  end.

Ltac extracted_case :=
  unfold _version_from_string;
  match goal with
  | |- context [Re.search version_pattern ?s] =>
      destruct (Re.search version_pattern s) as [v|]; cbn;
      [compared_case | not_found_case]
  end.

(** C9. Every response that [_check_version] or the check of a tool
    returns has [status_code] 0 exactly when the check succeeded, an
    error text exactly when [status_code] is not 0, and on success the
    success message as its [output]. *)
Theorem run_check_invariant (env : collaborators) (call : check_call)
  (r : ProcessResponse) :
  run_check env call = Return r -> response_invariant env call r.
Proof.
  destruct call as [binary version major minor patch exact
                   | major minor patch exact | major minor patch exact
                   | major minor patch exact | major minor patch exact
                   | major minor patch exact | major minor patch exact
                   | major minor patch exact | ].
  - cbn. unfold response_invariant, succeeded, observed.
    pose proof (check_version_outcome binary version major minor patch exact)
      as Hout.
    destruct (_check_version _ _ _ _ _ _) as [r'|err|sig];
      [|discriminate|discriminate].
    intros [= <-]. destruct Hout as (H1 & H2 & H3).
    repeat split; try tauto.
    intros H0. exists version. split; [reflexivity | exact (H3 H0)].
  - unfold run_check, check_node_version. printed_case. extracted_case.
  - unfold run_check, check_npm_version. printed_case. extracted_case.
  - cbn. unfold response_invariant, succeeded, observed, check_python_version.
    destruct (version_info env) as [[vmajor vminor] vmicro].
    match goal with
    | |- context [_check_version ?b ?v ?M ?m ?p ?e] =>
        pose proof (check_version_outcome b v M m p e) as Hout;
        destruct (_check_version b v M m p e) as [r'|err|sig];
        [|discriminate|discriminate];
        intros [= <-]; destruct Hout as (H1 & H2 & H3);
        repeat split; try tauto;
        intros H0; exists v; split; [reflexivity | exact (H3 H0)]
    end.
  - unfold run_check, check_docker_version. printed_case.
    destruct (json_client_version env (Py.strip out)) as [s|err|sig]; cbn;
      [|not_found_case|discriminate].
    extracted_case.
  - unfold run_check, check_docker_compose_version, response_invariant,
      succeeded, observed, printed, find_version.
    destruct (docker_helper env) as [compose|err|sig]; cbn [bind];
      [|discriminate|discriminate].
    destruct (run_cmd env (compose ++ ["version"])%list) as [res|err|sig]; cbn;
      [|not_found_case|discriminate].
    unfold output_strip.
    destruct (output res) as [out|]; cbn; [|not_found_case].
    extracted_case.
  - unfold run_check, check_imagemagick_version. printed_case. extracted_case.
  - unfold run_check, check_git_version. printed_case. extracted_case.
  - unfold run_check, check_pipenv_installed, response_invariant, succeeded,
      observed, printed, find_version.
    destruct (run_cmd env ["pipenv"; "--version"]) as [res|err|sig]; cbn;
      [|discriminate|discriminate].
    unfold output_strip. destruct (output res) as [out|]; cbn; [|not_found_case].
    destruct (Py.split "," (Py.strip out)) as [|first [|second rest]]; cbn;
      [not_found_case | |].
    { destruct (String.eqb first "pipenv"); cbn; not_found_case. }
    destruct (String.eqb first "pipenv"); cbn; [|not_found_case].
    unfold _version_from_string.
    destruct (Re.search version_pattern second) as [v|]; cbn; [|not_found_case].
    intros [= <-]. cbn. repeat split; intros; try discriminate; try congruence.
    exists v. split; reflexivity.
Qed.

Lemma run_check_invariant_witness :
  run_check example_env (Node 16 (-1) (-1) false)
  = Return (wrong_version_response "Node" [14; 4; 0] 16 (-1) (-1))
  /\ response_invariant example_env (Node 16 (-1) (-1) false)
       (wrong_version_response "Node" [14; 4; 0] 16 (-1) (-1)).
Proof.
  split; [reflexivity|].
  apply (run_check_invariant example_env (Node 16 (-1) (-1) false)).
  reflexivity.
Defined.

(** ** Step lists *)

(** C7, as the code has it. Every builder lists its parts in one fixed
    order. [check] is the four base steps, followed by [check_dev] exactly
    when [development] holds. [check_dev] is always the steps for Node,
    NPM, ImageMagick and git, and the tier of the platform version picks
    the Node and NPM majors. [install_py_dependencies] is the lock steps,
    present exactly when [is_locked] has a positive status code, followed
    by the steps that install the locked dependencies. [symlink] and
    [install_assets] have no condition, and [install] is
    [install_py_dependencies], [symlink] and [install_assets]. *)
Theorem builders_fixed_order :
  (forall rdm_major,
     check rdm_major true = (check rdm_major false ++ check_dev rdm_major)%list
     /\ check rdm_major false
        = [ mkFunctionStep Func.check_python_version
              [("major", VInt 3); ("minor", VInt 9)]
              "Checking Python version...";
            mkFunctionStep Func.check_pipenv_installed []
              "Checking Pipenv is installed...";
            mkFunctionStep Func.check_docker_version
              [("major", VInt 0); ("minor", VInt 0)]
              "Checking Docker version...";
            mkFunctionStep Func.check_docker_compose_version
              [("major", VInt 1); ("minor", VInt 17)]
              "Checking Docker Compose version..." ])
  /\ (forall rdm_major,
        let '(node_version, npm_version) :=
          if 12 <=? rdm_major then (18, 10)
          else if 11 <=? rdm_major then (16, 7)
          else (14, 6) in
        check_dev rdm_major
        = [ mkFunctionStep Func.check_node_version [("major", VInt node_version)]
              "Checking Node version...";
            mkFunctionStep Func.check_npm_version [("major", VInt npm_version)]
              "Checking NPM version...";
            mkFunctionStep Func.check_imagemagick_version
              [("major", VInt 0); ("minor", VInt 0)]
              "Checking ImageMagick version...";
            mkFunctionStep Func.check_git_version
              [("major", VInt 0); ("minor", VInt 0)]
              "Checking git version..." ])
  /\ (forall is_locked lock install_locked_dependencies pre dev,
        install_py_dependencies is_locked lock install_locked_dependencies pre dev
        = ((if 0 <? status_code is_locked then lock pre dev else [])
           ++ install_locked_dependencies pre dev)%list)
  /\ symlink
     = [ mkFunctionStep Func.update_instance_path [] "Updating instance path...";
         mkFunctionStep Func._symlink_project_file_or_folder
           [("target", VStr "invenio.cfg")] "Symlinking 'invenio.cfg'...";
         mkFunctionStep Func._symlink_project_file_or_folder
           [("target", VStr "templates")] "Symlinking 'templates'...";
         mkFunctionStep Func._symlink_project_file_or_folder
           [("target", VStr "app_data")] "Symlinking 'app_data'..." ]
  /\ (forall debug,
        install_assets debug
        = [ mkFunctionStep Func.update_statics_and_assets
              [("force", VBool true); ("debug", debug)]
              "Updating statics and assets..." ])
  /\ (forall is_locked lock install_locked_dependencies pre dev debug flask_env,
        install is_locked lock install_locked_dependencies pre dev debug flask_env
        = (install_py_dependencies is_locked lock install_locked_dependencies pre dev
           ++ symlink ++ install_assets flask_env)%list).
Proof.
  repeat split.
  - intros rdm_major. unfold check_dev. rewrite !Z.geb_leb.
    destruct (12 <=? rdm_major); [reflexivity|].
    destruct (11 <=? rdm_major); reflexivity.
  - intros. unfold install_py_dependencies. rewrite Z.gtb_ltb.
    destruct (0 <? status_code is_locked); reflexivity.
  - intros. unfold install. rewrite <- app_assoc. reflexivity.
Qed.

(** C7 fails on [check_dev] and on [install_py_dependencies]: the steps
    of the first depend on the tier of the platform version, those of the
    second on whether the dependencies are locked. *)
Lemma builders_other_conditions :
  check_dev 12 <> check_dev 9
  /\ let locked := {| output := None; error := None; status_code := 0 |} in
     let unlocked := {| output := None; error := None; status_code := 1 |} in
     let lock := fun _ _ : bool =>
       [mkFunctionStep (Func.other "lock") [] "Locking..."] in
     let install_locked := fun _ _ : bool => [] in
     install_py_dependencies locked lock install_locked false false
     <> install_py_dependencies unlocked lock install_locked false false.
Proof. split; cbv; discriminate. Qed.

(** C10. The step list of [install] ends with the step of
    [install_assets] whose arguments are [force] true and [debug] set to
    [flask_env], and the parameter [debug] of [install] does not change
    the list. *)
Theorem install_assets_step_takes_flask_env
  (is_locked : ProcessResponse)
  (lock install_locked_dependencies : bool -> bool -> list FunctionStep)
  (pre dev : bool) (debug flask_env : value) :
  (exists steps,
     install is_locked lock install_locked_dependencies pre dev debug flask_env
     = (steps ++ [ mkFunctionStep Func.update_statics_and_assets
                     [("force", VBool true); ("debug", flask_env)]
                     "Updating statics and assets..." ])%list)
  /\ forall debug',
       install is_locked lock install_locked_dependencies pre dev debug flask_env
       = install is_locked lock install_locked_dependencies pre dev debug' flask_env.
Proof.
  split; [|reflexivity].
  eexists. unfold install, install_assets. reflexivity.
Qed.

(** ** More on version extraction *)

Lemma append_assoc3 (a b c : string) : (a ++ b) ++ c = a ++ b ++ c.
Proof. induction a as [|x a IH]; cbn; [reflexivity | rewrite IH; reflexivity]. Qed.

Lemma count_char_append (c0 : ascii) (a b : string) :
  count_char c0 (a ++ b) = (count_char c0 a + count_char c0 b)%nat.
Proof. induction a as [|c a IH]; cbn; [reflexivity | rewrite IH; lia]. Qed.

Lemma match_here_one_inv (cs : Re.charset) (p : Re.pattern) (s m : string) :
  Re.match_here (Re.One cs :: p) s = Some m ->
  exists c s' m',
    s = String c s' /\ Re.mem cs c = true
    /\ Re.match_here p s' = Some m' /\ m = String c m'.
Proof.
  destruct s as [|c s']; cbn; [discriminate|].
  destruct (Re.mem cs c) eqn:Hc; [|discriminate].
  destruct (Re.match_here p s') as [m'|] eqn:Hm; cbn; [|discriminate].
  intros [= <-]. exists c, s', m'. repeat split; assumption.
Qed.

Lemma match_here_star_inv (cs : Re.charset) (p : Re.pattern) (s m : string) :
  Re.match_here (Re.Star cs :: p) s = Some m ->
  exists x s' m',
    s = x ++ s' /\ all_in cs x = true
    /\ Re.match_here p s' = Some m' /\ m = x ++ m'.
Proof.
  revert m. induction s as [|c s IH]; intros m H.
  - exists EmptyString, EmptyString, m. repeat split. exact H.
  - rewrite match_here_star_cons in H.
    destruct (Re.mem cs c) eqn:Hc.
    + destruct (Re.match_here (Re.Star cs :: p) s) as [m0|] eqn:Hs.
      * injection H as <-.
        destruct (IH m0 eq_refl) as (x & s' & m' & -> & Hx & Hm & ->).
        exists (String c x), s', m'. cbn. rewrite Hc, Hx. repeat split. exact Hm.
      * exists EmptyString, (String c s), m. repeat split. exact H.
    + exists EmptyString, (String c s), m. repeat split. exact H.
Qed.

Lemma match_here_nil_inv (s m : string) :
  Re.match_here [] s = Some m -> m = EmptyString.
Proof. cbn. congruence. Qed.

Lemma search_inv (p : Re.pattern) (s m : string) :
  Re.search p s = Some m ->
  exists pre s', s = pre ++ s' /\ Re.match_here p s' = Some m.
Proof.
  induction s as [|c s IH]; cbn [Re.search].
  - destruct (Re.match_here p EmptyString) eqn:H; [|discriminate].
    intros [= <-]. exists EmptyString, EmptyString. split; [reflexivity | exact H].
  - destruct (Re.match_here p (String c s)) eqn:H.
    + intros [= <-]. exists EmptyString, (String c s). split; [reflexivity | exact H].
    + intros Hs. destruct (IH Hs) as (pre & s' & -> & Hm).
      exists (String c pre), s'. split; [reflexivity | exact Hm].
Qed.

(** The shape of a match of the version pattern inside a text. *)
Lemma version_pattern_search_shape (text m : string) :
  Re.search version_pattern text = Some m ->
  exists pre x y z post,
    text = pre ++ m ++ post
    /\ m = x ++ "." ++ y ++ "." ++ z
    /\ all_in digits x = true /\ all_in digits y = true
    /\ all_in digits z = true.
Proof.
  intros H. apply search_inv in H as (pre & s0 & -> & H).
  unfold version_pattern in H.
  apply match_here_star_inv in H as (x & s1 & m1 & -> & Hx & H & ->).
  apply match_here_one_inv in H as (c1 & s2 & m2 & -> & Hc1 & H & ->).
  apply match_here_star_inv in H as (y & s3 & m3 & -> & Hy & H & ->).
  apply match_here_one_inv in H as (c2 & s4 & m4 & -> & Hc2 & H & ->).
  apply match_here_star_inv in H as (z & post & m5 & -> & Hz & H & ->).
  apply match_here_nil_inv in H as ->.
  cbn in Hc1, Hc2. apply Ascii.eqb_eq in Hc1 as ->. apply Ascii.eqb_eq in Hc2 as ->.
  exists pre, x, y, z, post. repeat split; try assumption.
  - f_equal. cbn [append].
    rewrite append_assoc3. cbn [append]. f_equal. f_equal.
    rewrite append_assoc3. cbn [append]. f_equal. f_equal.
    rewrite append_assoc3. reflexivity.
  - cbn [append]. f_equal. f_equal. f_equal. f_equal.
    induction z as [|c z IH]; cbn; [reflexivity | f_equal; apply IH].
    cbn in Hz. apply andb_true_iff in Hz. tauto.
Qed.

Lemma all_in_digits_numeric (x : string) :
  all_in digits x = true -> all_numeric x = true.
Proof.
  induction x as [|c x IH]; [reflexivity|]. cbn [all_in all_numeric].
  intros H. apply andb_true_iff in H as [Hc Hx]. rewrite (IH Hx), andb_true_r.
  unfold is_numeric. apply orb_true_iff. left. exact Hc.
Qed.

Lemma int_digits_digits (x : string) :
  all_in digits x = true ->
  forall acc ok, 0 <= acc -> x <> EmptyString \/ ok = true ->
  exists v, Py.int_digits acc ok x = Some v /\ 0 <= v.
Proof.
  induction x as [|c x IH]; intros Hx acc ok Hacc Hne.
  - destruct Hne as [Hne | ->]; [congruence|]. exists acc. split; [reflexivity | exact Hacc].
  - cbn [all_in] in Hx. apply andb_true_iff in Hx as [Hc Hx].
    cbn [Py.int_digits]. change (Py.is_digit c) with (Re.mem digits c). rewrite Hc.
    apply IH; [exact Hx | | right; reflexivity].
    assert (0 <= Py.digit_val c).
    { unfold Py.digit_val. cbn in Hc. apply andb_true_iff in Hc as [Hlo _].
      apply Nat.leb_le in Hlo. unfold Py.code in *.
      change (nat_of_ascii "0") with 48%nat in Hlo. lia. }
    lia.
Qed.

Lemma int_literal_digits (x : string) :
  all_in digits x = true -> x <> EmptyString ->
  Py.within_limit x = true ->
  exists v, Py.int_literal x = Some v /\ 0 <= v.
Proof.
  intros Hx Hne Hlim. unfold Py.int_literal.
  rewrite (strip_numeric _ (all_in_digits_numeric x Hx)).
  destruct (int_digits_digits x Hx 0 false (Z.le_refl 0) (or_introl Hne))
    as (v & Hv & Hpos).
  exists v. split; [|exact Hpos].
  assert (Hu : Py.unsigned_literal x = Some v)
    by (unfold Py.unsigned_literal; rewrite Hlim; exact Hv).
  destruct x as [|c x]; [congruence|].
  cbn [all_in] in Hx. apply andb_true_iff in Hx as [Hc _].
  destruct (Ascii.eqb_spec c "+") as [->|Hp]; [discriminate|].
  destruct (Ascii.eqb_spec c "-") as [->|Hm]; [discriminate|].
  rewrite <- Hu.
  destruct c as [[] [] [] [] [] [] [] []]; try reflexivity; congruence.
Qed.

Lemma digit_run_digits (x : string) :
  all_in digits x = true -> Py.digit_run x = x.
Proof.
  induction x as [|c x IH]; [reflexivity|]. cbn [all_in Py.digit_run].
  intros H. apply andb_true_iff in H as [Hc Hx].
  change (Py.is_digit c) with (Re.mem digits c). rewrite Hc, (IH Hx).
  reflexivity.
Qed.

Lemma unsigned_body_digits (x : string) :
  all_in digits x = true -> Py.unsigned_body x = x.
Proof.
  intros Hx. unfold Py.unsigned_body.
  destruct x as [|c x]; [reflexivity|].
  cbn [all_in] in Hx. apply andb_true_iff in Hx as [Hc _].
  cbn [Py.lstrip_by].
  assert (Hn : is_numeric c = true)
    by (unfold is_numeric; apply orb_true_iff; left; exact Hc).
  rewrite (is_numeric_not_space c Hn).
  destruct (Ascii.eqb_spec c "+") as [->|Hp]; [discriminate|].
  destruct (Ascii.eqb_spec c "-") as [->|Hm]; [discriminate|].
  destruct c as [[] [] [] [] [] [] [] []]; try reflexivity; congruence.
Qed.

(** What [int] does on a run of digits: it refuses the empty run as not
    a literal and a run over the limit for its length, and returns a
    non-negative value on the others. *)
Lemma int_group (x : string) :
  all_in digits x = true ->
  (x = EmptyString /\ Py.int x = Raise (ValueError EmptyString))
  \/ (Py.within_limit x = false /\ Py.int_literal x = None
      /\ Py.int x = Raise (ValueErrorLimit (Py.count_digits x)))
  \/ (refused x = false
      /\ exists v, Py.int_literal x = Some v /\ Py.int x = Return v /\ 0 <= v).
Proof.
  intros Hx. destruct x as [|c x]; [left; split; reflexivity|]. right.
  destruct (Py.within_limit (String c x)) eqn:Hlim.
  - right. split; [unfold refused; rewrite Hlim; reflexivity|].
    destruct (int_literal_digits _ Hx) as (v & Hv & Hpos);
      [discriminate | exact Hlim |].
    exists v. unfold Py.int. rewrite Hv. auto.
  - left. split; [reflexivity|].
    assert (Hnone : Py.int_literal (String c x) = None).
    { unfold Py.int_literal.
      rewrite (strip_numeric _ (all_in_digits_numeric _ Hx)).
      assert (Hu : Py.unsigned_literal (String c x) = None)
        by (unfold Py.unsigned_literal; rewrite Hlim; reflexivity).
      rewrite <- Hu.
      cbn [all_in] in Hx. apply andb_true_iff in Hx as [Hc _].
      destruct (Ascii.eqb_spec c "+") as [->|Hp]; [discriminate|].
      destruct (Ascii.eqb_spec c "-") as [->|Hm]; [discriminate|].
      destruct c as [[] [] [] [] [] [] [] []]; try reflexivity; congruence. }
    split; [exact Hnone|].
    unfold Py.int. rewrite Hnone. unfold Py.int_error.
    rewrite (unsigned_body_digits _ Hx), (digit_run_digits _ Hx), Hlim.
    destruct (int_digits_digits _ Hx 0 false (Z.le_refl 0))
      as (v & -> & _); [left; discriminate|]. reflexivity.
Qed.

Lemma refused_literal (x : string) :
  all_in digits x = true ->
  (refused x = true /\ Py.int_literal x = None)
  \/ (refused x = false /\ exists v, Py.int_literal x = Some v /\ 0 <= v).
Proof.
  intros Hx. destruct (int_group x Hx)
    as [[-> _] | [(Hlim & Hnone & _) | (Hr & v & Hv & _ & Hpos)]].
  - left. split; reflexivity.
  - left. split; [|exact Hnone]. unfold refused. rewrite Hlim.
    apply orb_true_r.
  - right. split; [exact Hr|]. exists v. auto.
Qed.

Lemma all_in_digits_no_dot (x : string) :
  all_in digits x = true -> has_char "." x = false.
Proof.
  intros H. apply all_numeric_no_dot, all_in_digits_numeric, H.
Qed.

Lemma split_three_groups (x y z : string) :
  all_in digits x = true -> all_in digits y = true -> all_in digits z = true ->
  Py.split "." (x ++ "." ++ y ++ "." ++ z) = [x; y; z].
Proof.
  intros Hx Hy Hz. cbn [append].
  rewrite split_field by (apply all_in_digits_no_dot, Hx).
  rewrite split_field by (apply all_in_digits_no_dot, Hy).
  rewrite split_last_field by (apply all_in_digits_no_dot, Hz). reflexivity.
Qed.

(** How three digit groups parse: to non-negative integers when [int]
    refuses none of them, and not at all otherwise. *)
Lemma groups_parse (x y z : string) :
  all_in digits x = true -> all_in digits y = true -> all_in digits z = true ->
  let v := x ++ "." ++ y ++ "." ++ z in
  (existsb refused [x; y; z] = true /\ parsed_version v = None)
  \/ (existsb refused [x; y; z] = false
      /\ exists a b c, parsed_version v = Some (a, b, c)
                       /\ 0 <= a /\ 0 <= b /\ 0 <= c).
Proof.
  intros Hx Hy Hz v. unfold parsed_version.
  unfold v. rewrite (split_three_groups x y z Hx Hy Hz). clear v.
  cbn [existsb].
  destruct (refused_literal x Hx) as [[-> ->] | (-> & a & -> & Ha)];
    [left; split; reflexivity|].
  destruct (refused_literal y Hy) as [[-> ->] | (-> & b & -> & Hb)];
    [left; split; reflexivity|].
  destruct (refused_literal z Hz) as [[-> ->] | (-> & c & -> & Hc)];
    [left; split; reflexivity|].
  right. split; [reflexivity|]. exists a, b, c. auto.
Qed.

(** With every group within the limit, the first empty group is where
    [int] raises. *)
Lemma groups_empty_raise (x y z : string) :
  all_in digits x = true -> all_in digits y = true -> all_in digits z = true ->
  forallb Py.within_limit [x; y; z] = true ->
  In EmptyString [x; y; z] ->
  mapM Py.int [x; y; z] = Raise (ValueError EmptyString).
Proof.
  intros Hx Hy Hz Hlim Hin. cbn [forallb] in Hlim.
  apply andb_true_iff in Hlim as [Lx Hlim].
  apply andb_true_iff in Hlim as [Ly Hlim].
  apply andb_true_iff in Hlim as [Lz _].
  cbn [mapM].
  destruct (int_group x Hx) as [[-> ->] | [(F & _) | (Rx & a & _ & -> & _)]];
    [reflexivity | congruence |].
  cbn [bind].
  destruct (int_group y Hy) as [[-> ->] | [(F & _) | (Ry & b & _ & -> & _)]];
    [reflexivity | congruence |].
  cbn [bind].
  destruct (int_group z Hz) as [[-> ->] | [(F & _) | (Rz & c & _ & _ & _)]];
    [reflexivity | congruence |].
  exfalso. destruct Hin as [E|[E|[E|[]]]]; rewrite E in *; discriminate.
Qed.

(** An output of git, with text after the version. *)
Lemma version_from_string_embedded_witness :
  _version_from_string "git version 2.36.1 (Apple Git)" = Return "2.36.1".
Proof.
  exact (version_from_string_embedded "git version " "2" "36" "1" " (Apple Git)"
           eq_refl eq_refl eq_refl eq_refl eq_refl eq_refl).
Defined.

(** What [_version_from_string] returns is a piece of the text, made of
    three runs of digits, each possibly empty, with a dot between them; it
    splits at its dots into exactly these three runs. *)
Theorem version_from_string_match_shape (text v : string) :
  _version_from_string text = Return v ->
  exists pre x y z post,
    text = pre ++ v ++ post
    /\ v = x ++ "." ++ y ++ "." ++ z
    /\ all_in digits x = true /\ all_in digits y = true
    /\ all_in digits z = true
    /\ Py.split "." v = [x; y; z].
Proof.
  unfold _version_from_string.
  destruct (Re.search version_pattern text) as [m|] eqn:H; [|discriminate].
  intros [= <-].
  apply version_pattern_search_shape in H
    as (pre & x & y & z & post & Ht & -> & Hx & Hy & Hz).
  exists pre, x, y, z, post. repeat split; try assumption.
  apply split_three_groups; assumption.
Qed.

Lemma version_from_string_match_shape_witness :
  exists pre x y z post,
    "Loading... v14.4.0" = pre ++ ".." ++ post
    /\ ".." = x ++ "." ++ y ++ "." ++ z
    /\ all_in digits x = true /\ all_in digits y = true
    /\ all_in digits z = true
    /\ Py.split "." ".." = [x; y; z].
Proof.
  exact (version_from_string_match_shape "Loading... v14.4.0" ".." eq_refl).
Defined.

(** A text with fewer than two dots has no version: the search finds
    nothing and [groups.group] raises. *)
Theorem version_from_string_needs_two_dots (text : string) :
  (count_char "." text < 2)%nat ->
  _version_from_string text = Raise (AttributeError "group").
Proof.
  intros Hc. unfold _version_from_string.
  destruct (Re.search version_pattern text) as [m|] eqn:H; [|reflexivity].
  apply version_pattern_search_shape in H
    as (pre & x & y & z & post & -> & -> & _).
  exfalso. revert Hc.
  rewrite !count_char_append. cbn. lia.
Qed.

Lemma version_from_string_needs_two_dots_witness :
  _version_from_string "v14.4" = Raise (AttributeError "group").
Proof.
  apply (version_from_string_needs_two_dots "v14.4"). cbn. lia.
Defined.

(** An extracted version fails to parse exactly when [int] refuses one
    of its three digit groups, the group being empty or longer than the
    limit of [int]; otherwise it parses to non-negative integers. *)
Theorem extracted_version_parse (text v : string) :
  _version_from_string text = Return v ->
  (parsed_version v = None <-> existsb refused (Py.split "." v) = true)
  /\ forall a b c, parsed_version v = Some (a, b, c) ->
                   0 <= a /\ 0 <= b /\ 0 <= c.
Proof.
  unfold _version_from_string.
  destruct (Re.search version_pattern text) as [m|] eqn:H; [|discriminate].
  intros [= <-].
  apply version_pattern_search_shape in H
    as (pre & x & y & z & post & _ & -> & Hx & Hy & Hz).
  rewrite (split_three_groups x y z Hx Hy Hz).
  destruct (groups_parse x y z Hx Hy Hz)
    as [(Hin & Hnone) | (Hnin & a & b & c & Hsome & Ha & Hb & Hc)].
  - rewrite Hnone, Hin. split; [tauto | discriminate].
  - rewrite Hsome, Hnin. split.
    + split; discriminate.
    + intros a' b' c' [= <- <- <-]. auto.
Qed.

Lemma extracted_version_parse_witness :
  (parsed_version "14..0" = None
   <-> existsb refused (Py.split "." "14..0") = true)
  /\ forall a b c, parsed_version "14..0" = Some (a, b, c) ->
                   0 <= a /\ 0 <= b /\ 0 <= c.
Proof.
  exact (extracted_version_parse "node 14..0" "14..0" eq_refl).
Defined.

(** On an extracted version that does not parse, [_check_version]
    raises. *)
Lemma check_version_extracted_unparsed (text v binary : string)
  (major minor patch : Z) (exact : bool) :
  Re.search version_pattern text = Some v ->
  parsed_version v = None ->
  exists e, _check_version binary v major minor patch exact = Raise e.
Proof.
  intros H Hnone. apply version_pattern_search_shape in H
    as (pre & x & y & z & post & _ & -> & Hx & Hy & Hz).
  unfold _check_version, parsed_version in *.
  rewrite (split_three_groups x y z Hx Hy Hz) in *.
  cbn [List.length Nat.eqb negb mapM]. unfold Py.int.
  destruct (Py.int_literal x); cbn [bind]; [|eexists; reflexivity].
  destruct (Py.int_literal y); cbn [bind]; [|eexists; reflexivity].
  destruct (Py.int_literal z); cbn [bind]; [discriminate|eexists; reflexivity].
Qed.

(** With every group within the limit, it is the [ValueError] of the
    empty literal. *)
Lemma check_version_extracted_empty (text v binary : string)
  (major minor patch : Z) (exact : bool) :
  Re.search version_pattern text = Some v ->
  In EmptyString (Py.split "." v) ->
  forallb Py.within_limit (Py.split "." v) = true ->
  _check_version binary v major minor patch exact
  = Raise (ValueError EmptyString).
Proof.
  intros H Hin Hlim. apply version_pattern_search_shape in H
    as (pre & x & y & z & post & _ & -> & Hx & Hy & Hz).
  unfold _check_version.
  rewrite (split_three_groups x y z Hx Hy Hz) in *.
  cbn [List.length Nat.eqb negb].
  rewrite (groups_empty_raise x y z Hx Hy Hz Hlim Hin). reflexivity.
Qed.

Lemma check_version_extracted_parsed (text v binary : string)
  (major minor patch : Z) (exact : bool) :
  Re.search version_pattern text = Some v ->
  parsed_version v <> None ->
  exists a b c,
    parsed_version v = Some (a, b, c) /\ 0 <= a /\ 0 <= b /\ 0 <= c
    /\ _check_version binary v major minor patch exact
       = Return (if version_ok [a; b; c] major minor patch exact
                 then version_ok_response binary v
                 else wrong_version_response binary [a; b; c] major minor patch).
Proof.
  intros H Hsome. apply version_pattern_search_shape in H
    as (pre & x & y & z & post & _ & -> & Hx & Hy & Hz).
  destruct (groups_parse x y z Hx Hy Hz)
    as [(_ & Hnone) | (_ & a & b & c & Hp & Ha & Hb & Hc)].
  - cbv zeta in Hnone. congruence.
  - exists a, b, c. repeat split; try assumption.
    apply check_version_parsed. exact Hp.
Qed.

Lemma append_inj_l (a s1 s2 : string) : a ++ s1 = a ++ s2 -> s1 = s2.
Proof.
  induction a as [|c a IH]; cbn; [tauto|]. intros [= H]. exact (IH H).
Qed.

Lemma check_version_not_format_error (text v binary : string)
  (major minor patch : Z) (exact : bool) (r : ProcessResponse) :
  Re.search version_pattern text = Some v ->
  _check_version binary v major minor patch exact = Return r ->
  error r <> error (format_error binary).
Proof.
  intros H Hr.
  destruct (parsed_version v) as [[[a b] c]|] eqn:Hp.
  - rewrite (check_version_parsed _ _ _ _ _ _ _ _ _ Hp) in Hr.
    injection Hr as <-. destruct (version_ok _ _ _ _ _); cbn; [discriminate|].
    intros [= E]. apply append_inj_l in E. discriminate.
  - destruct (check_version_extracted_unparsed _ _ binary major minor patch
                exact H Hp) as [e He].
    rewrite He in Hr. discriminate.
Qed.

Lemma not_found_not_format (tool msg : string) (r : ProcessResponse) :
  Return (not_found tool msg) = Return r ->
  error r <> error (format_error tool).
Proof.
  intros [= <-]. cbn. intros [= E]. apply append_inj_l in E. discriminate.
Qed.

(** ** The checks of the tools, end to end *)

Ltac pipeline env :=
  unfold observed, printed, find_version, output_strip;
  match goal with
  | |- context [run_cmd env ?cmd] =>
      destruct (run_cmd env cmd) as [res|err0|sig0];
      cbn [bind try_except option_map];
      [destruct (output res) as [out|]; cbn [bind try_except option_map]| |]
  end.

Lemma mapM_int_no_abort (l : list string) (signal : string) :
  mapM Py.int l <> Abort signal.
Proof.
  induction l as [|x l IH]; cbn [mapM]; [discriminate|].
  unfold Py.int at 1. destruct (Py.int_literal x); cbn [bind]; [|discriminate].
  destruct (mapM Py.int l); cbn [bind]; [discriminate | discriminate | exact IH].
Qed.

Lemma check_version_status (binary version : string)
  (major minor patch : Z) (exact : bool) :
  match _check_version binary version major minor patch exact with
  | Return r => status_code r = 0 \/ status_code r = 1
  | Raise _ => True
  | Abort _ => False
  end.
Proof.
  unfold _check_version.
  destruct (negb _); [right; reflexivity|].
  destruct (mapM Py.int _) as [parts|e|sig] eqn:Hm; cbn [bind]; [|exact I|].
  - destruct (version_ok _ _ _ _ _); [left|right]; reflexivity.
  - exact (mapM_int_no_abort _ _ Hm).
Qed.

(** The body of a guarded check: the version that the call extracts,
    compared under [try]. *)
Lemma guarded_body_outcome (tool : string) (version : result string)
  (major minor patch : Z) (exact : bool) :
  match try_except
          (v <- version ;; _check_version tool v major minor patch exact)
          (fun err => Return (not_found tool (Py.str_exn err))) with
  | Return r => status_code r = 0 \/ status_code r = 1
  | Raise _ => False
  | Abort signal => version = Abort signal
  end.
Proof.
  destruct version as [v|e|sig]; cbn [bind try_except];
    [|right; reflexivity|reflexivity].
  pose proof (check_version_status tool v major minor patch exact) as H.
  destruct (_check_version tool v major minor patch exact); cbn [try_except];
    [exact H | right; reflexivity | contradiction].
Qed.

Lemma bind_bind {A B C : Type} (m : result A) (f : A -> result B)
  (g : B -> result C) :
  bind (bind m f) g = bind m (fun a => bind (f a) g).
Proof. destruct m; reflexivity. Qed.

(** A check that reads the version from what a command prints, from its
    [try] on. *)
Lemma printed_check_outcome (run : list string -> result ProcessResponse)
  (tool : string) (command : list string)
  (major minor patch : Z) (exact : bool) :
  match try_except
          (result <- run command ;;
           out <- output_strip result ;;
           version <- _version_from_string out ;;
           _check_version tool version major minor patch exact)
          (fun err => Return (not_found tool (Py.str_exn err))) with
  | Return r => status_code r = 0 \/ status_code r = 1
  | Raise _ => False
  | Abort signal => run command = Abort signal
  end.
Proof.
  pose proof (guarded_body_outcome tool
    (result <- run command ;; out <- output_strip result ;;
     _version_from_string out) major minor patch exact) as H.
  assert (E :
    (v <- (result <- run command ;; out <- output_strip result ;;
           _version_from_string out) ;;
     _check_version tool v major minor patch exact)
    = (result <- run command ;; out <- output_strip result ;;
       version <- _version_from_string out ;;
       _check_version tool version major minor patch exact)).
  { destruct (run command) as [res| |]; cbn [bind]; try reflexivity.
    destruct (output_strip res); reflexivity. }
  rewrite E in H. clear E.
  destruct (try_except _ _) as [r|e|sig]; try exact H.
  destruct (run command) as [res|e|sig']; cbn [bind] in H;
    [|discriminate|congruence].
  unfold output_strip, _version_from_string in H.
  destruct (output res); cbn [bind] in H; [|discriminate].
  destruct (Re.search _ _); discriminate.
Qed.

(** A check that gets to its [try] block never raises: it returns a
    response, with status code 0 or 1, unless a signal that is not an
    [Exception] cuts short the command or the reading of its output, and
    then this signal passes through. *)
Theorem tool_checks_outcome (env : collaborators) (call : check_call) :
  enters_try env call = true ->
  match run_check env call with
  | Return r => status_code r = 0 \/ status_code r = 1
  | Raise _ => False
  | Abort signal =>
      (exists command, run_cmd env command = Abort signal)
      \/ (exists text, json_client_version env text = Abort signal)
  end.
Proof.
  assert (Hrun : forall tool command major minor patch exact,
    match try_except
            (result <- run_cmd env command ;;
             out <- output_strip result ;;
             version <- _version_from_string out ;;
             _check_version tool version major minor patch exact)
            (fun err => Return (not_found tool (Py.str_exn err))) with
    | Return r => status_code r = 0 \/ status_code r = 1
    | Raise _ => False
    | Abort signal => exists command, run_cmd env command = Abort signal
    end).
  { intros tool command major minor patch exact.
    pose proof (printed_check_outcome (run_cmd env) tool command
                  major minor patch exact) as H.
    destruct (try_except _ _); try exact H. exists command. exact H. }
  intros Hen.
  destruct call; try discriminate Hen; cbn [run_check].
  - pose proof (Hrun "Node" ["node"; "--version"] major minor patch exact) as H.
    unfold check_node_version.
    destruct (try_except _ _); auto.
  - pose proof (Hrun "NPM" ["npm"; "--version"] major minor patch exact) as H.
    unfold check_npm_version.
    destruct (try_except _ _); auto.
  - unfold check_docker_version.
    pose proof (guarded_body_outcome "Docker"
      (result <- run_cmd env ["docker"; "version"; "--format"; "json"] ;;
       out <- output_strip result ;;
       client_version <- json_client_version env out ;;
       _version_from_string client_version) major minor patch exact) as H.
    assert (E :
      (v <- (result <- run_cmd env ["docker"; "version"; "--format"; "json"] ;;
             out <- output_strip result ;;
             client_version <- json_client_version env out ;;
             _version_from_string client_version) ;;
       _check_version "Docker" v major minor patch exact)
      = (result <- run_cmd env ["docker"; "version"; "--format"; "json"] ;;
         out <- output_strip result ;;
         client_version <- json_client_version env out ;;
         version <- _version_from_string client_version ;;
         _check_version "Docker" version major minor patch exact)).
    { destruct (run_cmd env _) as [res| |]; cbn [bind]; try reflexivity.
      destruct (output_strip res); cbn [bind]; try reflexivity.
      destruct (json_client_version env _); reflexivity. }
    rewrite E in H. clear E.
    destruct (try_except _ _) as [r|e|sig]; try exact H.
    destruct (run_cmd env _) as [res|e|sig'] eqn:Hr; cbn [bind] in H;
      [|discriminate|injection H as ->; left; eexists; exact Hr].
    unfold output_strip in H.
    destruct (output res); cbn [bind] in H; [|discriminate].
    destruct (json_client_version env _) as [v|e|sig'] eqn:Hj; cbn [bind] in H;
      [|discriminate|injection H as ->; right; eexists; exact Hj].
    unfold _version_from_string in H. destruct (Re.search _ _); discriminate.
  - unfold enters_try in Hen. unfold check_docker_compose_version.
    destruct (docker_helper env) as [compose| |]; try discriminate Hen.
    cbn [bind].
    pose proof (Hrun "Docker Compose" (compose ++ ["version"])%list
                  major minor patch exact) as H.
    destruct (try_except _ _); auto.
  - pose proof (Hrun "ImageMagick" ["convert"; "--version"]
                  major minor patch exact) as H.
    unfold check_imagemagick_version.
    destruct (try_except _ _); auto.
  - pose proof (Hrun "git" ["git"; "--version"] major minor patch exact) as H.
    unfold check_git_version.
    destruct (try_except _ _); auto.
Qed.

Lemma tool_checks_outcome_witness :
  match run_check example_env (Git 0 0 (-1) false) with
  | Return r => status_code r = 0 \/ status_code r = 1
  | Raise _ => False
  | Abort signal =>
      (exists command, run_cmd example_env command = Abort signal)
      \/ (exists text, json_client_version example_env text = Abort signal)
  end.
Proof.
  apply (tool_checks_outcome example_env (Git 0 0 (-1) false)). reflexivity.
Defined.

(** The check of Docker Compose builds its helper before the [try]: it
    raises exactly when building the helper raises, with the same
    exception, and nothing turns it into a response. *)
Theorem check_docker_compose_version_raises_iff
  (run : list string -> result ProcessResponse)
  (helper : result (list string))
  (major minor patch : Z) (exact : bool) (e : exn) :
  check_docker_compose_version run helper major minor patch exact = Raise e
  <-> helper = Raise e.
Proof.
  unfold check_docker_compose_version.
  destruct helper as [compose|e'|sig]; cbn [bind].
  - pose proof (printed_check_outcome run "Docker Compose"
                  (compose ++ ["version"])%list major minor patch exact) as H.
    destruct (try_except _ _); try contradiction; split; discriminate.
  - split; intros [= ->]; reflexivity.
  - split; discriminate.
Qed.

(** [check_pipenv_installed] raises exactly when [run_cmd] does, and then
    it is the [UnboundLocalError] of [result], whatever exception
    [run_cmd] raised; a signal that is not an [Exception] passes
    through. *)
Theorem check_pipenv_installed_raises_iff
  (run : list string -> result ProcessResponse) :
  ((exists e, check_pipenv_installed run = Raise e)
   <-> exists e, run ["pipenv"; "--version"] = Raise e)
  /\ (forall e, check_pipenv_installed run = Raise e
                -> e = UnboundLocalError "result")
  /\ (forall signal, check_pipenv_installed run = Abort signal
                     <-> run ["pipenv"; "--version"] = Abort signal).
Proof.
  unfold check_pipenv_installed.
  destruct (run ["pipenv"; "--version"]) as [res|e0|sig].
  - match goal with
    | |- context [try_except ?b ?h] => set (t := try_except b h)
    end.
    assert (H : exists r, t = Return r).
    { unfold t, output_strip, _version_from_string.
      destruct (output res) as [out|]; cbn [bind try_except pipenv_except];
        [|eexists; reflexivity].
      cbv zeta. destruct (negb _); cbn [bind try_except pipenv_except];
        [eexists; reflexivity|].
      destruct (nth_error _ 1) as [second|];
        cbn [bind try_except pipenv_except]; [|eexists; reflexivity].
      destruct (Re.search version_pattern second);
        cbn [bind try_except pipenv_except]; eexists; reflexivity. }
    destruct H as [r ->]. repeat split; try discriminate;
      intros [e He]; discriminate.
  - cbn. repeat split; try discriminate.
    + intros _; eexists; reflexivity.
    + intros _; eexists; reflexivity.
    + intros e [= <-]. reflexivity.
  - repeat split; try discriminate; try (intros [e He]; discriminate); auto.
Qed.

(** When no command can be started, each check that gets to its [try]
    block answers with its own not-found response, which embeds the
    message of the exception. *)
Theorem guarded_checks_not_found (env : collaborators) (call : check_call)
  (e : exn) :
  enters_try env call = true ->
  (forall command, run_cmd env command = Raise e) ->
  run_check env call
  = Return {| output := None;
              error := Some (tool_name call ++ " not found. Got "
                             ++ Py.str_exn e ++ ".");
              status_code := 1 |}.
Proof.
  intros Hg Hrun.
  destruct call; try discriminate Hg; cbn [run_check tool_name].
  - unfold check_node_version. rewrite Hrun. reflexivity.
  - unfold check_npm_version. rewrite Hrun. reflexivity.
  - unfold check_docker_version. rewrite Hrun. reflexivity.
  - unfold check_docker_compose_version. unfold enters_try in Hg.
    destruct (docker_helper env); try discriminate Hg.
    cbn [bind]. rewrite Hrun. reflexivity.
  - unfold check_imagemagick_version. rewrite Hrun. reflexivity.
  - unfold check_git_version. rewrite Hrun. reflexivity.
Qed.

Lemma guarded_checks_not_found_witness :
  run_check
    {| run_cmd := fun _ => Raise (Foreign "No such file or directory: 'git'");
       json_client_version := fun _ => Return "1.2.3";
       docker_helper := Return ["docker"; "compose"];
       version_info := (3, 9, 5) |}
    (Git 0 0 (-1) false)
  = Return {| output := None;
              error := Some "git not found. Got No such file or directory: 'git'.";
              status_code := 1 |}.
Proof.
  refine (guarded_checks_not_found _ (Git 0 0 (-1) false)
            (Foreign "No such file or directory: 'git'") eq_refl _).
  intros command. reflexivity.
Defined.

(** When the version that a check extracts inside its [try] block has an
    empty digit group and no group beyond the limit of [int], the check
    reports the tool as not found, with the message of [int] on the
    empty literal. *)
Theorem guarded_checks_empty_group (env : collaborators) (call : check_call)
  (v : string) :
  enters_try env call = true ->
  observed env call = Some v ->
  In EmptyString (Py.split "." v) ->
  forallb Py.within_limit (Py.split "." v) = true ->
  run_check env call
  = Return {| output := None;
              error := Some (tool_name call
                             ++ " not found. Got invalid literal for int() with base 10: ''.");
              status_code := 1 |}.
Proof.
  intros Hg Hobs Hin Hlim.
  destruct call; try discriminate Hg; cbn [run_check tool_name];
    revert Hobs;
    [ unfold check_node_version | unfold check_npm_version
    | unfold check_docker_version
    | unfold check_docker_compose_version, observed, enters_try in *;
      destruct (docker_helper env) as [compose| |]; try discriminate Hg;
      cbn [bind]
    | unfold check_imagemagick_version | unfold check_git_version ];
    pipeline env; try discriminate;
    try (destruct (json_client_version env (Py.strip out)) as [s|err1|sig1];
         cbn [bind try_except]; [|discriminate|discriminate]);
    unfold _version_from_string;
    match goal with
    | |- context [Re.search version_pattern ?t] =>
        destruct (Re.search version_pattern t) as [v'|] eqn:Hs;
        [|discriminate]
    end;
    intros [= ->]; cbn [bind];
    rewrite (check_version_extracted_empty _ _ _ _ _ _ _ Hs Hin Hlim);
    reflexivity.
Qed.

Lemma guarded_checks_empty_group_witness :
  run_check (printing_env "Loading... v14.4.0") (Node 14 (-1) (-1) false)
  = Return {| output := None;
              error := Some "Node not found. Got invalid literal for int() with base 10: ''.";
              status_code := 1 |}.
Proof.
  refine (guarded_checks_empty_group (printing_env "Loading... v14.4.0")
            (Node 14 (-1) (-1) false) ".." eq_refl eq_refl _ eq_refl).
  cbn. auto.
Defined.

Ltac compare_extracted tool :=
  unfold _version_from_string;
  match goal with
  | |- context [Re.search version_pattern ?t] =>
      destruct (Re.search version_pattern t) as [v|] eqn:Hs;
      cbn [bind try_except]; [|apply not_found_not_format]
  end;
  match goal with
  | |- context [_check_version tool ?v0 ?M ?m ?p ?e] =>
      destruct (_check_version tool v0 M m p e) eqn:Hc;
      cbn [try_except];
      [ intros [= <-]; eapply check_version_not_format_error; eassumption
      | apply not_found_not_format
      | discriminate ]
  end.

(** No check of a tool ever answers with the format error of
    [_check_version]: an extracted or rendered version always has three
    fields. *)
Theorem tool_checks_never_format_error (env : collaborators)
  (call : check_call) (r : ProcessResponse) :
  (forall b v M m p e, call <> CheckVersion b v M m p e) ->
  run_check env call = Return r ->
  error r <> Some (tool_name call ++ " incorrect version format or not found. Check that it is installed correctly").
Proof.
  intros Hne.
  change (Some (tool_name call ++ _)) with (error (format_error (tool_name call))).
  destruct call; cbn [run_check tool_name];
    try (exfalso; eapply Hne; reflexivity).
  - unfold check_node_version.
    pipeline env; try apply not_found_not_format; try discriminate.
    compare_extracted "Node".
  - unfold check_npm_version.
    pipeline env; try apply not_found_not_format; try discriminate.
    compare_extracted "NPM".
  - unfold check_python_version, _check_version.
    destruct (version_info env) as [[a b] c].
    rewrite split_rendered. cbn [List.length Nat.eqb negb].
    destruct (mapM Py.int _) as [parts| |]; cbn [bind]; try discriminate.
    destruct (version_ok _ _ _ _ _); intros [= <-]; cbn; discriminate.
  - unfold check_docker_version.
    pipeline env; try apply not_found_not_format; try discriminate.
    destruct (json_client_version env (Py.strip out)) as [s|err1|sig1];
      cbn [bind try_except];
      [|apply not_found_not_format|discriminate].
    compare_extracted "Docker".
  - unfold check_docker_compose_version.
    destruct (docker_helper env) as [compose| |]; cbn [bind];
      try discriminate.
    pipeline env; try apply not_found_not_format; try discriminate.
    compare_extracted "Docker Compose".
  - unfold check_imagemagick_version.
    pipeline env; try apply not_found_not_format; try discriminate.
    compare_extracted "ImageMagick".
  - unfold check_git_version.
    pipeline env; try apply not_found_not_format; try discriminate.
    compare_extracted "git".
  - unfold check_pipenv_installed.
    destruct (run_cmd env ["pipenv"; "--version"]) as [res|e0|sig0];
      [|discriminate|discriminate].
    match goal with
    | |- try_except ?b _ = _ -> _ => destruct b as [r0|e1|sig1] eqn:Hb
    end; cbn [try_except pipenv_except];
      [|apply not_found_not_format|discriminate].
    revert Hb. unfold output_strip.
    destruct (output res) as [out|]; cbn [bind]; [|discriminate].
    cbv zeta. destruct (negb _); [intros [= <-] [= <-]; cbn; discriminate|].
    destruct (nth_error _ 1) as [second|]; [|discriminate].
    destruct (_version_from_string second); cbn [bind];
      [|discriminate|discriminate].
    intros [= <-] [= <-]. discriminate.
Qed.

Lemma tool_checks_never_format_error_witness :
  error (wrong_version_response "Node" [14; 4; 0] 16 (-1) (-1))
  <> Some ("Node" ++ " incorrect version format or not found. Check that it is installed correctly").
Proof.
  apply (tool_checks_never_format_error example_env (Node 16 (-1) (-1) false)).
  - intros b v M m p e. discriminate.
  - reflexivity.
Defined.

(** ** Consequences of the comparison *)





(** A version with non-negative minor and patch that passes a requirement
    in exact mode passes the same requirement in minimum mode. *)
Theorem check_version_exact_implies_minimum (binary version : string)
  (major minor patch a b c : Z) (r : ProcessResponse) :
  parsed_version version = Some (a, b, c) -> 0 <= b -> 0 <= c ->
  _check_version binary version major minor patch true = Return r ->
  status_code r = 0 ->
  _check_version binary version major minor patch false
  = Return (version_ok_response binary version).
Proof.
  intros H Hb Hc. rewrite !(check_version_parsed _ _ _ _ _ _ _ _ _ H).
  pose proof (version_ok_exact a b c major minor patch) as He.
  pose proof (version_ok_minimum a b c major minor patch) as Hm.
  destruct (version_ok _ _ _ _ true); intros [= <-] H0; [|discriminate].
  destruct (version_ok _ _ _ _ false); [reflexivity|].
  assert (false = true) by (apply Hm; destruct He as [He _];
                            specialize (He eq_refl); lia).
  discriminate.
Qed.

Lemma check_version_exact_implies_minimum_witness :
  _check_version "Python" "3.9.5" 3 9 (-1) false
  = Return (version_ok_response "Python" "3.9.5").
Proof.
  apply (check_version_exact_implies_minimum "Python" "3.9.5" 3 9 (-1) 3 9 5
           (version_ok_response "Python" "3.9.5"));
    [reflexivity | lia | lia | reflexivity | reflexivity].
Defined.

(** In minimum mode a newer version passes whatever an older one
    passes. *)
Theorem check_version_minimum_monotone (binary v1 v2 : string)
  (major minor patch a1 b1 c1 a2 b2 c2 : Z) :
  parsed_version v1 = Some (a1, b1, c1) ->
  parsed_version v2 = Some (a2, b2, c2) ->
  a1 < a2 \/ (a1 = a2 /\ b1 < b2) \/ (a1 = a2 /\ b1 = b2 /\ c1 <= c2) ->
  _check_version binary v1 major minor patch false
  = Return (version_ok_response binary v1) ->
  _check_version binary v2 major minor patch false
  = Return (version_ok_response binary v2).
Proof.
  intros H1 H2 Hle.
  rewrite (check_version_parsed _ _ _ _ _ _ _ _ _ H1),
          (check_version_parsed _ _ _ _ _ _ _ _ _ H2).
  pose proof (version_ok_minimum a1 b1 c1 major minor patch) as Hm1.
  pose proof (version_ok_minimum a2 b2 c2 major minor patch) as Hm2.
  destruct (version_ok [a1; b1; c1] _ _ _ _); [|discriminate].
  intros _. destruct (version_ok [a2; b2; c2] _ _ _ _); [reflexivity|].
  assert (false = true) by (apply Hm2; destruct Hm1 as [Hm1 _];
                            specialize (Hm1 eq_refl); lia).
  discriminate.
Qed.

Lemma check_version_minimum_monotone_witness :
  _check_version "Node" "16.0.0" 14 18 5 false
  = Return (version_ok_response "Node" "16.0.0").
Proof.
  apply (check_version_minimum_monotone "Node" "14.19.0" "16.0.0"
           14 18 5 14 19 0 16 0 0);
    [reflexivity | reflexivity | lia | reflexivity].
Defined.

(** The requirement 0.0, which the steps of Docker, ImageMagick and git
    state, is met by every extracted version that parses: these steps only
    test that the tool answers with a version. *)
Theorem extracted_version_meets_zero (text v binary : string) :
  _version_from_string text = Return v ->
  parsed_version v <> None ->
  _check_version binary v 0 0 (-1) false
  = Return (version_ok_response binary v).
Proof.
  unfold _version_from_string.
  destruct (Re.search version_pattern text) as [m|] eqn:Hs; [|discriminate].
  intros [= <-] Hp.
  destruct (check_version_extracted_parsed text m binary 0 0 (-1) false Hs Hp)
    as (a & b & c & _ & Ha & Hb & Hc & ->).
  pose proof (version_ok_minimum a b c 0 0 (-1)) as Hm.
  destruct (version_ok _ _ _ _ _); [reflexivity|].
  assert (false = true) by (apply Hm; lia). discriminate.
Qed.

Lemma extracted_version_meets_zero_witness :
  _check_version "git" "0.0.0" 0 0 (-1) false
  = Return (version_ok_response "git" "0.0.0").
Proof.
  apply (extracted_version_meets_zero "git version 0.0.0" "0.0.0" "git");
    [reflexivity | discriminate].
Defined.

(** ** The instance path *)

Lemma lstrip_by_starts (sp : ascii -> bool) (s : string) :
  starts_by sp (Py.lstrip_by sp s) = false.
Proof.
  induction s as [|c s IH]; [reflexivity|]. cbn [Py.lstrip_by].
  destruct (sp c) eqn:Hc; [exact IH | cbn; exact Hc].
Qed.

Lemma rstrip_by_starts (sp : ascii -> bool) (s : string) :
  starts_by sp s = false -> starts_by sp (Py.rstrip_by sp s) = false.
Proof.
  destruct s as [|c s]; [reflexivity|]. cbn [starts_by Py.rstrip_by].
  intros Hc. destruct (Py.rstrip_by sp s); [rewrite Hc|]; cbn; auto.
Qed.

Lemma rstrip_by_ends (sp : ascii -> bool) (s : string) :
  ends_by sp (Py.rstrip_by sp s) = false.
Proof.
  induction s as [|c s IH]; [reflexivity|]. cbn [Py.rstrip_by].
  destruct (Py.rstrip_by sp s) as [|c' t] eqn:Hr.
  - destruct (sp c) eqn:Hc; cbn; auto.
  - exact IH.
Qed.

(** [s.strip()] neither starts nor ends with white space. *)
Lemma strip_trimmed (s : string) :
  starts_by Py.is_space (Py.strip s) = false
  /\ ends_by Py.is_space (Py.strip s) = false.
Proof.
  unfold Py.strip, Py.strip_by. split.
  - apply rstrip_by_starts, lstrip_by_starts.
  - apply rstrip_by_ends.
Qed.

(** [update_instance_path] returns the status code and the error of the
    command. A status code other than 0 leaves the response and the
    configuration as they are; on status code 0 the path written to the
    configuration is the output of the command without the white space
    around it, and the output of the response is replaced by the success
    message. *)
Theorem update_instance_path_outcome (Config : Type)
  (set_instance_path : string -> Config -> Config)
  (run_command : list string -> list string)
  (run : list string -> result ProcessResponse)
  (cli_config cli_config' : Config) (r : ProcessResponse) :
  update_instance_path Config set_instance_path run_command run cli_config
  = Return (r, cli_config') ->
  exists res,
    run (instance_path_command run_command) = Return res
    /\ status_code r = status_code res
    /\ error r = error res
    /\ (status_code res <> 0 -> r = res /\ cli_config' = cli_config)
    /\ (status_code res = 0 ->
        exists out path,
          output res = Some out
          /\ path = Py.strip out
          /\ starts_by Py.is_space path = false
          /\ ends_by Py.is_space path = false
          /\ cli_config' = set_instance_path path cli_config
          /\ output r = Some "Instance path updated successfully.").
Proof.
  unfold update_instance_path.
  destruct (run (instance_path_command run_command)) as [res|e|sig];
    cbn [bind]; [|discriminate|discriminate].
  intros H. exists res. split; [reflexivity|].
  destruct (Z.eqb_spec (status_code res) 0) as [H0|H0].
  - unfold output_strip in H. destruct (output res) as [out|]; cbn [bind] in H;
      [|discriminate].
    injection H as <- <-. cbn. repeat split; auto; try congruence.
    intros _. exists out, (Py.strip out).
    destruct (strip_trimmed out). repeat split; auto.
  - injection H as <- <-. repeat split; auto. congruence.
Qed.

Lemma update_instance_path_outcome_witness :
  exists res,
    prints "  /opt/instance " (instance_path_command (fun l => "pipenv" :: "run" :: l))
    = Return res
    /\ status_code {| output := Some "Instance path updated successfully.";
                       error := Some EmptyString; status_code := 0 |}
       = status_code res.
Proof.
  destruct (update_instance_path_outcome (list string) cons
              (fun l => "pipenv" :: "run" :: l) (prints "  /opt/instance ")
              [] ["/opt/instance"]
              {| output := Some "Instance path updated successfully.";
                 error := Some EmptyString; status_code := 0 |} eq_refl)
    as (res & H1 & H2 & _).
  exists res. split; assumption.
Defined.

Example update_instance_path_example :
  update_instance_path (list string) cons (fun l => "pipenv" :: "run" :: l)
    (prints "  /opt/instance ") []
  = Return ({| output := Some "Instance path updated successfully.";
               error := Some EmptyString; status_code := 0 |},
            ["/opt/instance"]).
Proof. reflexivity. Qed.

(** ** The arguments of the steps *)

(** Every step of [check] and of [symlink] calls a function of these two
    files with arguments that its signature accepts. *)
Theorem check_and_symlink_steps_well_called (rdm_major : Z) (development : bool) :
  forallb (fun s => here s && well_called s)
          (check rdm_major development ++ symlink) = true.
Proof.
  unfold check, check_dev.
  destruct development; [|reflexivity].
  destruct (rdm_major >=? 12); [reflexivity|].
  destruct (rdm_major >=? 11); reflexivity.
Qed.

(** A newer platform never lowers a requirement: the steps of
    [check_dev] are the same functions in the same order, and the major
    that each one requires does not decrease with [rdm_major]. *)
Theorem check_dev_monotone (rdm1 rdm2 : Z) :
  rdm1 <= rdm2 ->
  Forall2 (fun s1 s2 =>
             func s1 = func s2 /\ message s1 = message s2
             /\ exists z1 z2, required_major s1 = Some z1
                              /\ required_major s2 = Some z2 /\ z1 <= z2)
          (check_dev rdm1) (check_dev rdm2).
Proof.
  intros Hle. unfold check_dev.
  destruct (Z.geb_spec rdm1 12), (Z.geb_spec rdm2 12); try lia;
    destruct (Z.geb_spec rdm1 11), (Z.geb_spec rdm2 11); try lia;
    repeat constructor; cbn; eexists _, _; repeat split; lia.
Qed.

Lemma check_dev_monotone_witness :
  Forall2 (fun s1 s2 =>
             func s1 = func s2 /\ message s1 = message s2
             /\ exists z1 z2, required_major s1 = Some z1
                              /\ required_major s2 = Some z2 /\ z1 <= z2)
          (check_dev 9) (check_dev 12).
Proof. apply (check_dev_monotone 9 12). lia. Defined.
